(** * ESMValTool: dataset download scripts and the surge-height pipeline

    A shallow embedding of

    - [esmvaltool/cmorizers/data/downloaders/datasets/merra2.py],
      [esacci_sea_surface_salinity.py], [esacci_soil_moisture.py] and
      [hadcrut4.py]: each [download_dataset] is a program over a trace of
      the calls it makes on its downloader object;
    - [esmvaltool/diag_scripts/surge_height/__init__.py]: the package only
      re-exports [grad_psl], [build_predictX] and [estimate_srg]; their
      bodies are modelled from the specification.

    Dates are naive [datetime] values; [relativedelta(years=1)] follows
    dateutil (year plus one, day clamped to the length of the month,
    [ValueError] past [MAXYEAR]).  Calls on the downloader are assumed to
    return normally; what [exists] answers and what [local_folder] holds is
    decided by an environment that sees the whole history of calls. *)

From Stdlib Require Import ZArith List String Bool Lia Sorted.
From Stdlib Require Import DecimalString.
From Stdlib Require Import Ring InitialRing.
From Stdlib Require DecimalZ DecimalPos FinFun SpecFloat.
Import ListNotations.

Local Open Scope string_scope.
Local Open Scope list_scope.
Local Open Scope Z_scope.

(* ================================================================== *)
(** ** Python's [datetime] and dateutil's [relativedelta] *)

Module Calendar.

Definition MINYEAR : Z := 1.
Definition MAXYEAR : Z := 9999.

(** [calendar.isleap] *)
Definition isleap (y : Z) : bool :=
  (y mod 4 =? 0) && (negb (y mod 100 =? 0) || (y mod 400 =? 0)).

(** [calendar.mdays] *)
Definition mdays (month : Z) : Z :=
  match month with
  | 1 => 31 | 2 => 28 | 3 => 31 | 4 => 30 | 5 => 31 | 6 => 30
  | 7 => 31 | 8 => 31 | 9 => 30 | 10 => 31 | 11 => 30 | 12 => 31
  | _ => 0
  end.

(** second component of [calendar.monthrange(year, month)] *)
Definition days_in_month (y month : Z) : Z :=
  mdays month + (if (month =? 2) && isleap y then 1 else 0).

Record datetime : Type := mk_datetime {
  year : Z; month : Z; day : Z;
  hour : Z; minute : Z; second : Z; microsecond : Z
}.

(** [datetime(y, m, d)] *)
Definition date3 (y m d : Z) : datetime := mk_datetime y m d 0 0 0 0.

Definition between (lo x hi : Z) : bool := (lo <=? x) && (x <=? hi).

(** The values the [datetime] constructor accepts. *)
Definition valid (d : datetime) : bool :=
  between MINYEAR (year d) MAXYEAR && between 1 (month d) 12
  && between 1 (day d) (days_in_month (year d) (month d))
  && between 0 (hour d) 23 && between 0 (minute d) 59
  && between 0 (second d) 59 && between 0 (microsecond d) 999999.

Definition lex (c1 c2 : comparison) : comparison :=
  match c1 with Eq => c2 | _ => c1 end.

(** Naive datetimes compare field by field, most significant first. *)
Definition compare (a b : datetime) : comparison :=
  lex (year a ?= year b)
 (lex (month a ?= month b)
 (lex (day a ?= day b)
 (lex (hour a ?= hour b)
 (lex (minute a ?= minute b)
 (lex (second a ?= second b)
      (microsecond a ?= microsecond b)))))).

(** [a <= b] *)
Definition le (a b : datetime) : bool :=
  match compare a b with Gt => false | _ => true end.

(** [relativedelta(years=n)]; the other fields of a relativedelta are
    absent from the scripts. *)
Record relativedelta : Type := { years : Z }.

(** [relativedelta.__add__] on a datetime: [other.replace(year, month,
    day)] with the day clamped; [replace] raises [ValueError] when the
    year leaves [MINYEAR..MAXYEAR], which is returned as [None]. *)
Definition add (other : datetime) (r : relativedelta) : option datetime :=
  let y := year other + years r in
  let m := month other in
  let d := Z.min (days_in_month y m) (day other) in
  if between MINYEAR y MAXYEAR
  then Some (mk_datetime y m d (hour other) (minute other)
                         (second other) (microsecond other))
  else None.

End Calendar.

Import Calendar.

(* ================================================================== *)
(** ** Calls on the downloader, and the monad the scripts run in *)

(** The Python values handed to the downloader. *)
Inductive pyvalue : Type :=
| PyInt (z : Z)
| PyStr (s : string).

(** [str(n)] and [f'{n}'] for an int. *)
Definition str (z : Z) : string := NilZero.string_of_int (Z.to_int z).

(** ESMValTool's user configuration, a dict the scripts only pass on. *)
Definition config : Type := list (string * string).

Inductive event : Type :=
| New (cls : string) (cfg : config) (dataset : string) (overwrite : bool)
| SetAttr (name : string) (v : pyvalue)
| GetAttr (name : string) (v : string)
| Connect
| SetCwd (path : string)
| Exists (name : string) (answer : bool)
| DownloadYear (year : pyvalue)
| DownloadFolder (path : string)
| DownloadFile (url : string) (wget_options : list string)
| Makedirs (path : string) (exist_ok : bool)
| LogInfo (msg : string).

Definition trace : Type := list event.

(** What the outside world decides: the answer of [downloader.exists] and
    the value of [downloader.local_folder], given everything that happened
    so far. *)
Record Env : Type := {
  env_exists : trace -> string -> bool;
  env_local_folder : trace -> string
}.

Inductive pytype : Type := NoneType | DatetimeType | RelativedeltaType.

Inductive exn : Type :=
| TypeError (op : string) (left right : pytype)
| AttributeError (obj : pytype) (attr : string)
| ValueError.

Inductive outcome (A : Type) : Type :=
| Returned (a : A)
| Raised (e : exn)
| OutOfFuel.
Arguments Returned {A} a.
Arguments Raised {A} e.
Arguments OutOfFuel {A}.

(** A computation extends the history of calls and returns, raises, or
    runs out of loop fuel. *)
Definition M (A : Type) : Type := trace -> outcome A * trace.

Definition ret {A} (a : A) : M A := fun h => (Returned a, h).

Definition bind {A B} (m : M A) (k : A -> M B) : M B :=
  fun h =>
    match m h with
    | (Returned a, h') => k a h'
    | (Raised e, h') => (Raised e, h')
    | (OutOfFuel, h') => (OutOfFuel, h')
    end.

Definition raise {A} (e : exn) : M A := fun h => (Raised e, h).
Definition diverge {A} : M A := fun h => (OutOfFuel, h).
Definition emit (e : event) : M unit := fun h => (Returned tt, h ++ [e]).

Notation "x <- m ;; k" := (bind m (fun x => k))
  (at level 61, m at next level, right associativity).
Notation "m ;; k" := (bind m (fun _ => k))
  (at level 61, right associativity).

(** Run a script from the empty history. *)
Definition run {A} (m : M A) : outcome A * trace := m [].
Definition result {A} (m : M A) : outcome A := fst (run m).
Definition calls {A} (m : M A) : trace := snd (run m).

(** A date argument is a datetime or [None]. *)
Definition pydate : Type := option datetime.

Definition type_of (v : pydate) : pytype :=
  match v with None => NoneType | Some _ => DatetimeType end.

(** [a <= b]: only two datetimes are comparable. *)
Definition py_le (a b : pydate) : M bool :=
  match a, b with
  | Some x, Some y => ret (Calendar.le x y)
  | _, _ => raise (TypeError "<=" (type_of a) (type_of b))
  end.

(** [v.year] *)
Definition get_year (v : pydate) : M Z :=
  match v with
  | Some d => ret (year d)
  | None => raise (AttributeError NoneType "year")
  end.

(** [v + relativedelta(...)] *)
Definition py_add (v : pydate) (r : relativedelta) : M pydate :=
  match v with
  | Some d =>
      match Calendar.add d r with
      | Some d' => ret (Some d')
      | None => raise ValueError
      end
  | None => raise (TypeError "+" NoneType RelativedeltaType)
  end.

(** [if v is None: v = default] *)
Definition default_if_none (v : pydate) (default : datetime) : pydate :=
  match v with None => Some default | Some d => Some d end.

(** [while loop_date <= end_date: loop_date = body(loop_date)]; the body
    returns the loop date it leaves behind. *)
Fixpoint while_le (fuel : nat) (body : pydate -> M pydate)
    (loop_date end_date : pydate) : M unit :=
  match fuel with
  | O => diverge
  | S n =>
      c <- py_le loop_date end_date ;;
      if c : bool
      then (d <- body loop_date ;; while_le n body d end_date)
      else ret tt
  end.

(** One more than the number of years from [loop_date] to [end_date]:
    the loop date gains a year per turn, so this many turns are never
    exceeded (lemma [while_le_fuel]). *)
Definition turns (loop_date end_date : pydate) : nat :=
  match loop_date, end_date with
  | Some s, Some e => S (Z.to_nat (year e - year s + 1))
  | _, _ => 1%nat
  end.

Definition while_loop (body : pydate -> M pydate)
    (loop_date end_date : pydate) : M unit :=
  while_le (turns loop_date end_date) body loop_date end_date.

(** [for x in l: body(x)] *)
Fixpoint for_each {A} (l : list A) (body : A -> M unit) : M unit :=
  match l with
  | [] => ret tt
  | x :: rest => body x ;; for_each rest body
  end.

(* ================================================================== *)
(** ** The four download scripts *)

(** merra2.py *)
Module Merra2.

Definition folder_url (y : Z) : string :=
  ("https://goldsmr4.gesdisc.eosdis.nasa.gov/data/MERRA2_MONTHLY/"
   ++ "M2TMNXLND.5.12.4/" ++ str y ++ "/")%string.

Definition loop_body (loop_date : pydate) : M pydate :=
  y <- get_year loop_date ;;
  emit (DownloadFolder (folder_url y)) ;;
  py_add loop_date {| years := 1 |}.

Definition download_dataset (cfg : config) (dataset : string)
    (start_date end_date : pydate) (overwrite : bool) : M unit :=
  let loop_date := start_date in
  emit (New "NASADownloader" cfg dataset overwrite) ;;
  while_loop loop_body loop_date end_date.

End Merra2.

(** esacci_sea_surface_salinity.py *)
Module EsacciSeaSurfaceSalinity.

Definition default_start : datetime := date3 2010 1 1.
Definition default_end : datetime := date3 2019 1 1.

Definition versions : list string := ["v01.8"; "v02.31"].

Definition not_available (y : Z) (version : string) : string :=
  ("Year " ++ str y ++ " not available for version " ++ version)%string.

Definition dl_exists (env : Env) (name : string) : M bool :=
  fun h => let a := env_exists env h name in
           (Returned a, h ++ [Exists name a]).

Definition loop_body (env : Env) (version : string)
    (loop_date : pydate) : M pydate :=
  y <- get_year loop_date ;;
  found <- dl_exists env (str y) ;;
  (if found : bool
   then (y' <- get_year loop_date ;; emit (DownloadYear (PyInt y')))
   else (y' <- get_year loop_date ;;
         emit (LogInfo (not_available y' version)))) ;;
  py_add loop_date {| years := 1 |}.

Definition download_dataset (env : Env) (cfg : config) (dataset : string)
    (start_date end_date : pydate) (overwrite : bool) : M unit :=
  let start_date := default_if_none start_date default_start in
  let end_date := default_if_none end_date default_end in
  emit (New "CCIDownloader" cfg dataset overwrite) ;;
  emit Connect ;;
  for_each versions (fun version =>
    emit (SetCwd (version ++ "/30days")%string) ;;
    let loop_date := start_date in
    while_loop (loop_body env version) loop_date end_date).

End EsacciSeaSurfaceSalinity.

(** esacci_soil_moisture.py *)
Module EsacciSoilMoisture.

Definition default_start : datetime := date3 1979 1 1.
Definition default_end : datetime := date3 2016 1 1.

Definition loop_body (loop_date : pydate) : M pydate :=
  y <- get_year loop_date ;;
  emit (DownloadYear (PyStr (str y))) ;;
  py_add loop_date {| years := 1 |}.

Definition download_dataset (cfg : config) (dataset : string)
    (start_date end_date : pydate) (overwrite : bool) : M unit :=
  let start_date := default_if_none start_date default_start in
  let end_date := default_if_none end_date default_end in
  let loop_date := start_date in
  emit (New "CCIDownloader" cfg dataset overwrite) ;;
  emit (SetAttr "ftp_name" (PyStr "soil_moisture")) ;;
  emit Connect ;;
  emit (SetCwd "ancillary/v04.2/") ;;
  emit (DownloadFolder ".") ;;
  emit (SetCwd "daily_files/COMBINED/v04.2/") ;;
  while_loop loop_body loop_date end_date.

End EsacciSoilMoisture.

(** hadcrut4.py *)
Module Hadcrut4.

Definition median_url : string :=
  ("https://crudata.uea.ac.uk/cru/data/temperature/"
   ++ "HadCRUT.4.6.0.0.median.nc")%string.

Definition absolute_url : string :=
  "https://crudata.uea.ac.uk/cru/data/temperature/absolute.nc".

Definition get_local_folder (env : Env) : M string :=
  fun h => let v := env_local_folder env h in
           (Returned v, h ++ [GetAttr "local_folder" v]).

Definition download_dataset (env : Env) (cfg : config) (dataset : string)
    (_ __ : pydate) (overwrite : bool) : M unit :=
  emit (New "WGetDownloader" cfg dataset overwrite) ;;
  emit (SetAttr "tier" (PyInt 2)) ;;
  local_folder <- get_local_folder env ;;
  emit (Makedirs local_folder true) ;;
  emit (DownloadFile median_url []) ;;
  emit (DownloadFile absolute_url []).

End Hadcrut4.

(** An environment in which [exists] always gives the same answer. *)
Definition env_const (answer : bool) : Env :=
  {| env_exists := fun _ _ => answer;
     env_local_folder := fun _ => "rawobs/Tier2/HadCRUT4" |}.


(* ================================================================== *)
(** ** The year loop, as the date-range iteration is described *)

(** The loop dates of [while loop_date <= end_date: ...; loop_date +=
    relativedelta(years=1)], in the words of the date-range iteration: the
    first loop date is the start, each further one is one calendar year
    after its predecessor, and the walk ends at the first loop date past
    [end_date] -- or when the year leaves what a datetime can hold. *)
Inductive year_chain (end_date : datetime)
  : datetime -> list datetime -> outcome unit -> Prop :=
| chain_stop d :
    Calendar.le d end_date = false ->
    year_chain end_date d [] (Returned tt)
| chain_next d d' ds o :
    Calendar.le d end_date = true ->
    Calendar.add d {| years := 1 |} = Some d' ->
    year_chain end_date d' ds o ->
    year_chain end_date d (d :: ds) o
| chain_overflow d :
    Calendar.le d end_date = true ->
    Calendar.add d {| years := 1 |} = None ->
    year_chain end_date d [d] (Raised ValueError).

(** The year chain as a function: the loop dates and how the walk ends. *)
Fixpoint walk (fuel : nat) (d e : datetime) : list datetime * outcome unit :=
  match fuel with
  | O => ([], OutOfFuel)
  | S n =>
      if Calendar.le d e
      then match Calendar.add d {| years := 1 |} with
           | Some d' => let (ds, o) := walk n d' e in (d :: ds, o)
           | None => ([d], Raised ValueError)
           end
      else ([], Returned tt)
  end.

(** A loop body that makes some calls described by [P] and then adds a
    year to the loop date. *)
Definition steps_with (P : datetime -> trace -> Prop)
    (body : pydate -> M pydate) : Prop :=
  forall d h, exists evs,
    P d evs /\
    body (Some d) h =
      match Calendar.add d {| years := 1 |} with
      | Some d' => (Returned (Some d'), h ++ evs)
      | None => (Raised ValueError, h ++ evs)
      end.


(* ================================================================== *)
(** ** Reading traces *)

(** What one turn of each year loop adds to the trace at loop date [d]. *)
Definition merra2_turn (d : datetime) (evs : trace) : Prop :=
  evs = [DownloadFolder (Merra2.folder_url (year d))].

Definition soil_moisture_turn (d : datetime) (evs : trace) : Prop :=
  evs = [DownloadYear (PyStr (str (year d)))].

Definition salinity_turn (version : string) (d : datetime) (evs : trace)
  : Prop :=
  evs = [Exists (str (year d)) true; DownloadYear (PyInt (year d))] \/
  evs = [Exists (str (year d)) false;
         LogInfo (EsacciSeaSurfaceSalinity.not_available (year d) version)].

(** What esacci_soil_moisture.py does before its year loop. *)
Definition soil_moisture_prelude (cfg : config) (ds : string) (ow : bool)
  : trace :=
  [New "CCIDownloader" cfg ds ow;
   SetAttr "ftp_name" (PyStr "soil_moisture");
   Connect;
   SetCwd "ancillary/v04.2/";
   DownloadFolder ".";
   SetCwd "daily_files/COMBINED/v04.2/"].

(** The names the [exists] calls of a trace ask for, in order. *)
Definition exists_names (t : trace) : list string :=
  flat_map (fun e => match e with Exists n _ => [n] | _ => [] end) t.

(** The years [first], [first + 1], ... ([count] of them). *)
Definition years_from (first : Z) (count : nat) : list Z :=
  map (fun k => first + Z.of_nat k) (seq 0 count).

(** The arguments of the [download_year] calls of a trace, in order. *)
Definition download_year_calls (t : trace) : list pyvalue :=
  flat_map (fun e => match e with DownloadYear y => [y] | _ => [] end) t.

(** The name a year is asked for under: [str(year)]. *)
Definition year_name (y : pyvalue) : string :=
  match y with PyInt z => str z | PyStr s => s end.

(** Every [download_year] call has an earlier [exists] call that answered
    true for that year. *)
Definition confirmed_first (t : trace) : Prop :=
  forall t1 y t2, t = t1 ++ DownloadYear y :: t2 ->
    In (Exists (year_name y) true) t1.

(** Every [download_year(y)] call comes right after [exists(str(y))]
    answered true. *)
Definition download_follows_check (t : trace) : Prop :=
  forall t1 y t2, t = t1 ++ DownloadYear y :: t2 ->
    exists t0 z, y = PyInt z /\ t1 = t0 ++ [Exists (str z) true].

(** After [exists] answered false the next thing is the log message, not
    a download. *)
Definition failed_check_skips (t : trace) : Prop :=
  forall t1 n t2, t = t1 ++ Exists n false :: t2 ->
    exists msg t3, t2 = LogInfo msg :: t3.

(** The same two properties as a check that runs over a trace. *)
Fixpoint well_guarded (t : trace) : bool :=
  match t with
  | [] => true
  | Exists n true :: r =>
      match r with
      | DownloadYear (PyInt z) :: r' => String.eqb n (str z) && well_guarded r'
      | _ => false
      end
  | Exists n false :: r =>
      match r with
      | LogInfo _ :: r' => well_guarded r'
      | _ => false
      end
  | DownloadYear _ :: _ => false
  | _ :: r => well_guarded r
  end.

Definition is_exists (e : event) : bool :=
  match e with Exists _ _ => true | _ => false end.

(** The six operations of the downloader interface. *)
Definition interface_op (e : event) : bool :=
  match e with
  | Connect | SetCwd _ | Exists _ _ | DownloadYear _
  | DownloadFolder _ | DownloadFile _ _ => true
  | _ => false
  end.

(** Creating the downloader object. *)
Definition construction (e : event) : bool :=
  match e with New _ _ _ _ => true | _ => false end.

(** Events that touch the downloader object ([os.makedirs] and
    [logger.info] do not). *)
Definition on_downloader (e : event) : bool :=
  match e with Makedirs _ _ | LogInfo _ => false | _ => true end.

(** The attribute accesses next to the six operations: hadcrut4.py sets
    [tier] and reads [local_folder]; esacci_soil_moisture.py sets
    [ftp_name]. *)
Definition hadcrut4_attribute (e : event) : bool :=
  match e with
  | SetAttr name (PyInt 2) => String.eqb name "tier"
  | GetAttr name _ => String.eqb name "local_folder"
  | _ => false
  end.

Definition soil_moisture_attribute (e : event) : bool :=
  match e with
  | SetAttr name (PyStr v) =>
      String.eqb name "ftp_name" && String.eqb v "soil_moisture"
  | _ => false
  end.

(** A script touches its downloader only by creating it, through the six
    operations, and through the attribute accesses [extra]. *)
Definition touches_only (extra : event -> bool) (t : trace) : Prop :=
  Forall (fun e => on_downloader e = true ->
                   construction e || interface_op e || extra e = true) t.

Definition no_attribute (e : event) : bool := false.

(* ================================================================== *)
(** ** The surge-height pipeline *)

Module SurgeHeight.

(** Modelled from the spec: the numbers of the fields and coefficients
    (section 3 speaks of grids of floats), with their zero, one, sum,
    product, difference and negation.  No law is asked of them. *)
Class Numbers (R : Type) : Type := {
  rO : R; rI : R;
  radd : R -> R -> R; rmul : R -> R -> R;
  rsub : R -> R -> R; ropp : R -> R
}.

(** Numbers with exact arithmetic: the operations obey the laws of a
    commutative ring, as those of the integers or the rationals do.  The
    floats of the specification are not of this kind (see [binary64]). *)
Class Scalar (R : Type) : Type := {
  scalar_numbers :: Numbers R;
  scalar_ring : ring_theory rO rI radd rmul rsub ropp (@eq R)
}.

#[export] Instance Scalar_Z : Scalar Z :=
  {| scalar_numbers :=
       {| rO := 0; rI := 1; radd := Z.add; rmul := Z.mul;
          rsub := Z.sub; ropp := Z.opp |};
     scalar_ring := Zth |}.

(** The floats of numpy: IEEE 754 binary64, 53 bits of precision, each
    operation rounded to nearest even. *)
Definition binary64 : Type := SpecFloat.spec_float.

Definition Numbers_binary64 : Numbers binary64 :=
  {| rO := SpecFloat.S754_zero false;
     rI := SpecFloat.S754_finite false 4503599627370496 (-52);
     radd := SpecFloat.SFadd 53 1024;
     rmul := SpecFloat.SFmul 53 1024;
     rsub := SpecFloat.SFsub 53 1024;
     ropp := SpecFloat.SFopp |}.

(** The error taxonomy of the pipeline. *)
Inductive error : Type :=
| ConfigurationError
| DataLoadError
| DimensionMismatchError
| IOError.

Section Pipeline.

Context {R : Type} `{Numbers R}.

(** A field: rows of cells. *)
Definition grid : Type := list (list R).

Definition rectangular (rows cols : nat) (f : grid) : Prop :=
  List.length f = rows /\ Forall (fun r => List.length r = cols) f.

(** Number of rows, and the length of each. *)
Definition shape (f : grid) : nat * list nat :=
  (List.length f, map (@List.length R) f).

Definition same_shape (f g : grid) : Prop := shape f = shape g.

Fixpoint zip_with {A B C} (op : A -> B -> C) (l1 : list A) (l2 : list B)
  : list C :=
  match l1, l2 with
  | a :: l1', b :: l2' => op a b :: zip_with op l1' l2'
  | _, _ => []
  end.

Definition total (l : list R) : R := fold_right radd rO l.

(** Dot product of two vectors. *)
Definition dot (u v : list R) : R := total (zip_with rmul u v).

(** Dot product of two fields: the sum over all cells. *)
Definition inner (f g : grid) : R := total (zip_with dot f g).

(** A vector of zeros. *)
Definition all_zero (l : list R) : Prop := Forall (eq rO) l.

(** Cell by cell sums. *)
Definition vadd (u v : list R) : list R := zip_with radd u v.
Definition gadd (f g : grid) : grid := zip_with vadd f g.

(** Differences along a sequence of cells: centred inside, one-sided
    at both ends; a sequence of one cell has nothing to differ from. *)
Section Differences.

Context {A : Type} (minus : A -> A -> A) (edge centre : A -> A).

Fixpoint centred (prev : A) (l : list A) : list A :=
  match l with
  | [] => []
  | x :: tl =>
      match tl with
      | [] => [edge (minus x prev)]
      | y :: _ => centre (minus y prev) :: centred x tl
      end
  end.

Definition differences (l : list A) : list A :=
  match l with
  | [] => []
  | x :: tl =>
      match tl with
      | [] => [edge (minus x x)]
      | y :: _ => edge (minus y x) :: centred x tl
      end
  end.

End Differences.

(** The weights of the one-sided and of the centred difference
    (grid spacing and normalisation). *)
Record Stencil : Type := { edge_weight : R; centre_weight : R }.

(** Modelled from the spec: the body of [dataprep.grad_psl], which the
    package only imports.  Section 4.4: from one input field, the
    zonal and the meridional derivative, each of the shape of the
    input, boundary cells by a one-sided difference; no state. *)
Definition grad_psl (st : Stencil) (psl : grid) : grid * grid :=
  let zonal :=
    map (differences rsub (rmul (edge_weight st))
                     (rmul (centre_weight st))) psl in
  let meridional :=
    differences (zip_with rsub) (map (rmul (edge_weight st)))
                (map (rmul (centre_weight st))) psl in
  (zonal, meridional).

(** Modelled from the spec: the body of [estimate.build_predictX],
    which the package only imports.  Section 4.5: the projection of a
    gradient field onto the EOF modes, one dot product per mode. *)
Definition build_predictX (gradient : grid) (eofs : list grid) : list R :=
  map (fun mode => inner gradient mode) eofs.

Record Coefficients : Type := { betas : list R; intercept : R }.

(** Modelled from the spec: the body of [estimate.estimate_srg], which
    the package only imports.  Section 4.6: coefficients . predictor +
    intercept, [DimensionMismatchError] when the two vectors differ in
    length. *)
Definition estimate_srg (predictor : list R) (c : Coefficients)
  : error + R :=
  if Nat.eqb (List.length predictor) (List.length (betas c))
  then inr (radd (dot (betas c) predictor) (intercept c))
  else inl DimensionMismatchError.

(** Modelled from the spec: the driver of one time step, which is not
    in the package file.  Section 2: Gradient Preprocessor, Predictor
    Builder (the projections of both gradient fields, one after the
    other), Estimator, Output Writer; an error ends the step.
    [written] is what the Output Writer has stored so far. *)
Definition surge_estimator_step (st : Stencil) (eofs : list grid)
    (c : Coefficients) (psl : grid) (written : list R)
  : (error + unit) * list R :=
  let (gradlon, gradlat) := grad_psl st psl in
  let predictor :=
    build_predictX gradlon eofs ++ build_predictX gradlat eofs in
  match estimate_srg predictor c with
  | inl err => (inl err, written)
  | inr srg => (inr tt, written ++ [srg])
  end.

(** Modelled from the spec: the driver over the time steps, which is
    not in the package file.  Sections 3 and 7: steps in order, a
    shape mismatch is fatal. *)
Fixpoint surge_estimator (st : Stencil) (eofs : list grid)
    (c : Coefficients) (fields : list grid) (written : list R)
  : (error + unit) * list R :=
  match fields with
  | [] => (inr tt, written)
  | psl :: rest =>
      match surge_estimator_step st eofs c psl written with
      | (inl err, written') => (inl err, written')
      | (inr _, written') => surge_estimator st eofs c rest written'
      end
  end.

End Pipeline.

(** Example data over the integers. *)
Definition unit_stencil : Stencil (R := Z) :=
  {| edge_weight := 1; centre_weight := 1 |}.

Definition sample_psl : grid (R := Z) :=
  [[1; 4; 9; 16]; [2; 3; 5; 8]; [0; 0; 7; 7]].

Definition sample_eofs : list (grid (R := Z)) :=
  [ [[1; 0]; [0; 1]]; [[1; 1]; [1; 1]] ].

Definition five_betas : Coefficients (R := Z) :=
  {| betas := [1; 2; 3; 4; 5]; intercept := 7 |}.

Definition four_betas : Coefficients (R := Z) :=
  {| betas := [1; 2; 3; 4]; intercept := 7 |}.


(** The binary64 numbers 0.1, 0.2 and 10. *)
Definition b64_tenth : binary64 :=
  SpecFloat.S754_finite false 7205759403792794 (-56).
Definition b64_fifth : binary64 :=
  SpecFloat.S754_finite false 7205759403792794 (-55).
Definition b64_ten : binary64 :=
  SpecFloat.S754_finite false 5629499534213120 (-49).

End SurgeHeight.

(* ================================================================== *)
(** ** Further readings of dates and traces *)

(** The first instant of a year: 1 January, midnight. *)
Definition first_instant (d : datetime) : bool :=
  (month d =? 1) && (day d =? 1) && (hour d =? 0) && (minute d =? 0)
  && (second d =? 0) && (microsecond d =? 0).

(** The day of the month a loop date of year [y] falls on, for a walk that
    started at [start]: a start on 29 February moves to the 28th. *)
Definition loop_day (start : datetime) (y : Z) : Z :=
  if (month start =? 2) && (day start =? 29) && negb (y =? year start)
  then 28 else day start.

(** What a loop date [d] keeps of the start [s] of its walk. *)
Definition keeps_date (s d : datetime) : Prop :=
  valid d = true /\ year s <= year d /\ month d = month s /\
  day d = loop_day s (year d) /\
  hour d = hour s /\ minute d = minute s /\
  second d = second s /\ microsecond d = microsecond s.

(** The loop date of year [y] in a walk that started at [start]. *)
Definition date_in_year (start : datetime) (y : Z) : datetime :=
  mk_datetime y (month start) (loop_day start y) (hour start)
              (minute start) (second start) (microsecond start).

(** How many loop dates a walk from [s] up to [e] has: one per year before
    the year of [e], and that year too when its loop date is not past
    [e]. *)
Definition loop_years (s e : datetime) : nat :=
  if year s <=? year e
  then Z.to_nat (year e - year s)
       + (if Calendar.le (date_in_year s (year e)) e then 1 else 0)
  else 0.

(** [int(s)] on the decimal name of a year. *)
Definition parse_year (s : string) : option Z :=
  option_map Z.of_int (NilZero.int_of_string s).

(** How many [exists] calls of a trace were answered with [a]. *)
Definition count_answers (a : bool) (t : trace) : nat :=
  List.length
    (filter (fun e => match e with Exists _ b => Bool.eqb a b | _ => false end)
            t).

(** The messages handed to [logger.info], in order. *)
Definition log_messages (t : trace) : list string :=
  flat_map (fun e => match e with LogInfo m => [m] | _ => [] end) t.

(** A trace in which downloads, log messages and answers add up: one
    download per answer true, one message per answer false. *)
Definition answers_balance (t : trace) : Prop :=
  List.length (download_year_calls t) = count_answers true t
  /\ List.length (log_messages t) = count_answers false t
  /\ List.length (exists_names t)
     = (count_answers true t + count_answers false t)%nat.

(* ================================================================== *)
(** ** Facts about dates *)

Section CalendarFacts.

Lemma le_year (a b : datetime) : Calendar.le a b = true -> year a <= year b.
Proof.
  unfold Calendar.le, Calendar.compare, lex.
  destruct (Z.compare_spec (year a) (year b)); intros; try lia; discriminate.
Qed.

Lemma year_gt_not_le (a b : datetime) :
  year b < year a -> Calendar.le a b = false.
Proof.
  intros H. destruct (Calendar.le a b) eqn:E; [|reflexivity].
  apply le_year in E. lia.
Qed.

Lemma compare_refl (a : datetime) : Calendar.compare a a = Eq.
Proof. unfold Calendar.compare. now rewrite !Z.compare_refl. Qed.

Lemma le_refl (a : datetime) : Calendar.le a a = true.
Proof. unfold Calendar.le. now rewrite compare_refl. Qed.

Lemma add_one_year (d d' : datetime) :
  Calendar.add d {| years := 1 |} = Some d' ->
  year d' = year d + 1 /\ month d' = month d /\
  day d' = Z.min (days_in_month (year d + 1) (month d)) (day d) /\
  hour d' = hour d /\ minute d' = minute d /\
  second d' = second d /\ microsecond d' = microsecond d.
Proof.
  unfold Calendar.add; cbn [years].
  destruct (between MINYEAR (year d + 1) MAXYEAR); [|discriminate].
  intros [= <-]. cbn. repeat split.
Qed.

Lemma add_one_year_some (d : datetime) :
  0 <= year d < MAXYEAR -> exists d', Calendar.add d {| years := 1 |} = Some d'.
Proof.
  intros H. unfold Calendar.add, between, MINYEAR, MAXYEAR in *; cbn [years].
  replace (1 <=? year d + 1) with true by (symmetry; apply Z.leb_le; lia).
  replace (year d + 1 <=? 9999) with true by (symmetry; apply Z.leb_le; lia).
  cbn. eauto.
Qed.

Lemma add_one_year_none (d : datetime) :
  Calendar.add d {| years := 1 |} = None ->
  year d < 0 \/ MAXYEAR <= year d.
Proof.
  intros H. destruct (Z_lt_ge_dec (year d) 0) as [|Hge]; [now left|].
  destruct (Z_lt_ge_dec (year d) MAXYEAR) as [Hlt|]; [|right; lia].
  destruct (add_one_year_some d) as [d' Hd']; [lia|congruence].
Qed.

Lemma days_in_month_lower (y m : Z) : 1 <= m <= 12 -> 28 <= days_in_month y m.
Proof.
  intros H. unfold days_in_month.
  assert (28 <= mdays m).
  { assert (Hm : m = 1 \/ m = 2 \/ m = 3 \/ m = 4 \/ m = 5 \/ m = 6 \/
                  m = 7 \/ m = 8 \/ m = 9 \/ m = 10 \/ m = 11 \/ m = 12) by lia.
    repeat destruct Hm as [-> | Hm]; try subst m; cbn; lia. }
  destruct ((m =? 2) && isleap y); lia.
Qed.

Lemma between_spec (lo x hi : Z) : between lo x hi = true <-> lo <= x <= hi.
Proof. unfold between. rewrite andb_true_iff, !Z.leb_le. tauto. Qed.

(** Adding a year to a datetime gives a datetime. *)
Lemma add_one_year_valid (d d' : datetime) :
  valid d = true -> Calendar.add d {| years := 1 |} = Some d' ->
  valid d' = true.
Proof.
  intros Hv Ha. pose proof Ha as Hf. apply add_one_year in Hf.
  destruct Hf as (Hy & Hm & Hd & Hh & Hmin & Hs & Hus).
  unfold Calendar.add in Ha; cbn [years] in Ha.
  destruct (between MINYEAR (year d + 1) MAXYEAR) eqn:Hb; [|discriminate].
  unfold valid in *. rewrite !andb_true_iff in Hv.
  destruct Hv as ((((((_ & Hvm) & Hvd) & Hvh) & Hvmin) & Hvs) & Hvus).
  rewrite Hy, Hm, Hd, Hh, Hmin, Hs, Hus, Hb, Hvm, Hvh, Hvmin, Hvs, Hvus.
  cbn. rewrite !andb_true_r. apply between_spec.
  apply between_spec in Hvm, Hvd.
  pose proof (days_in_month_lower (year d + 1) (month d) Hvm). lia.
Qed.

End CalendarFacts.

(* ================================================================== *)
(** ** Facts about the year loop *)

Section YearLoop.

Lemma year_chain_functional e s ds1 o1 :
  year_chain e s ds1 o1 ->
  forall ds2 o2, year_chain e s ds2 o2 -> ds1 = ds2 /\ o1 = o2.
Proof.
  induction 1 as [d Hle | d d' ds o Hle Hadd Hch IH | d Hle Hadd];
    intros ds2 o2 H2; inversion H2 as [? Hle2 | ? d2 ds' o' Hle2 Hadd2 Hch2 | ? Hle2 Hadd2];
    subst; try congruence; auto.
  assert (d' = d2) by congruence. subst d2.
  destruct (IH _ _ Hch2) as [-> ->]. auto.
Qed.

Lemma year_chain_le e s ds o :
  year_chain e s ds o -> Forall (fun d => Calendar.le d e = true) ds.
Proof. induction 1; auto. Qed.

Lemma year_chain_from e s ds o :
  year_chain e s ds o -> Forall (fun d => year s <= year d) ds.
Proof.
  induction 1 as [d Hle | d d' ds o Hle Hadd Hch IH | d Hle Hadd].
  - constructor.
  - constructor; [lia|]. apply add_one_year in Hadd.
    eapply Forall_impl; [|exact IH]. cbn. intros; lia.
  - constructor; [lia|constructor].
Qed.

(** The years of the loop dates go up strictly. *)
Lemma year_chain_sorted e s ds o :
  year_chain e s ds o ->
  StronglySorted (fun a b => year a < year b) ds.
Proof.
  induction 1 as [d Hle | d d' ds o Hle Hadd Hch IH | d Hle Hadd].
  - constructor.
  - constructor; [exact IH|]. apply add_one_year in Hadd.
    apply year_chain_from in Hch.
    eapply Forall_impl; [|exact Hch]. cbn. intros; lia.
  - repeat constructor.
Qed.

Lemma year_chain_years e s ds o :
  year_chain e s ds o ->
  map year ds = map (fun k => year s + Z.of_nat k) (seq 0 (List.length ds)).
Proof.
  induction 1 as [d Hle | d d' ds o Hle Hadd Hch IH | d Hle Hadd].
  - reflexivity.
  - cbn [map List.length seq]. rewrite Z.add_0_r. f_equal.
    rewrite IH, <- seq_shift, map_map. apply map_ext. intros k.
    apply add_one_year in Hadd. lia.
  - cbn. now rewrite Z.add_0_r.
Qed.

Lemma year_chain_start e s ds o :
  year_chain e s ds o ->
  if Calendar.le s e then hd_error ds = Some s else ds = [].
Proof. destruct 1 as [d Hle | d d' ds o Hle | d Hle]; now rewrite Hle. Qed.

(** Before year 9999 the walk never overflows. *)
Lemma year_chain_returns e s ds o :
  0 <= year s -> year e < MAXYEAR ->
  year_chain e s ds o -> o = Returned tt.
Proof.
  intros Hs He. induction 1 as [d Hle | d d' ds o Hle Hadd Hch IH | d Hle Hadd].
  - reflexivity.
  - apply IH. apply add_one_year in Hadd. lia.
  - apply le_year in Hle. apply add_one_year_none in Hadd. lia.
Qed.

Lemma year_chain_outcome e s ds o :
  year_chain e s ds o -> o = Returned tt \/ o = Raised ValueError.
Proof. induction 1; auto. Qed.

Lemma walk_chain (n : nat) :
  forall d e, (Z.to_nat (year e - year d + 1) < n)%nat ->
    year_chain e d (fst (walk n d e)) (snd (walk n d e)).
Proof.
  induction n as [|n IH]; intros d e Hn; [lia|]. cbn [walk].
  destruct (Calendar.le d e) eqn:Hle; [|now constructor].
  destruct (Calendar.add d {| years := 1 |}) as [d'|] eqn:Hadd;
    [|now constructor].
  pose proof (add_one_year _ _ Hadd) as (Hy & _).
  pose proof (le_year _ _ Hle) as Hly.
  specialize (IH d' e ltac:(lia)).
  destruct (walk n d' e) as [ds o]. econstructor; eauto.
Qed.

Variable P : datetime -> trace -> Prop.
Variable body : pydate -> M pydate.
Hypothesis Hbody : steps_with P body.

(** With fuel for one turn more than the years from [s] to [e], the
    loop walks the year chain and makes the calls of its body once per
    loop date. *)
Lemma while_le_chain (n : nat) :
  forall (s e : datetime) (h : trace),
    (Z.to_nat (year e - year s + 1) < n)%nat ->
    exists dates blocks o,
      while_le n body (Some s) (Some e) h = (o, h ++ List.concat blocks) /\
      year_chain e s dates o /\ Forall2 P dates blocks.
Proof.
  induction n as [|n IH]; intros s e h Hn; [lia|].
  cbn [while_le]. unfold bind at 1. cbn [py_le ret].
  destruct (Calendar.le s e) eqn:Hle.
  - unfold bind. destruct (Hbody s h) as (evs & HP & ->).
    destruct (Calendar.add s {| years := 1 |}) as [d'|] eqn:Hadd.
    + pose proof (add_one_year _ _ Hadd) as (Hy & _).
      pose proof (le_year _ _ Hle) as Hly.
      destruct (IH d' e (h ++ evs)) as (dates & blocks & o & Hrun & Hch & HF);
        [lia|].
      exists (s :: dates), (evs :: blocks), o. split; [|split].
      * rewrite Hrun. cbn [List.concat]. now rewrite app_assoc.
      * econstructor; eauto.
      * now constructor.
    + exists [s], [evs], (Raised ValueError). split; [|split].
      * cbn [List.concat]. now rewrite app_nil_r.
      * now constructor.
      * repeat constructor; assumption.
  - exists [], [], (Returned tt). split; [|split].
    + cbn. now rewrite app_nil_r.
    + now constructor.
    + constructor.
Qed.

Lemma while_loop_chain (s e : datetime) (h : trace) :
  exists dates blocks o,
    while_loop body (Some s) (Some e) h = (o, h ++ List.concat blocks) /\
    year_chain e s dates o /\ Forall2 P dates blocks.
Proof. apply while_le_chain. cbn [turns]. lia. Qed.

(** More fuel changes nothing: the loop never runs out. *)
Lemma while_le_fuel (n : nat) :
  forall (m : nat) (s e : datetime) (h : trace),
    (Z.to_nat (year e - year s + 1) < n)%nat ->
    (Z.to_nat (year e - year s + 1) < m)%nat ->
    while_le n body (Some s) (Some e) h = while_le m body (Some s) (Some e) h.
Proof.
  induction n as [|n IH]; intros [|m] s e h Hn Hm; try lia.
  cbn [while_le]. unfold bind at 1 3. cbn [py_le ret].
  destruct (Calendar.le s e) eqn:Hle; [|reflexivity].
  unfold bind. destruct (Hbody s h) as (evs & _ & ->).
  destruct (Calendar.add s {| years := 1 |}) as [d'|] eqn:Hadd; [|reflexivity].
  pose proof (add_one_year _ _ Hadd) as (Hy & _).
  pose proof (le_year _ _ Hle) as Hly.
  apply IH; lia.
Qed.

End YearLoop.

(* ================================================================== *)
(** ** The loops of the three range scripts *)

Section Turns.

Lemma bind_emit {B} (e : event) (k : M B) (h : trace) :
  (emit e ;; k) h = k (h ++ [e]).
Proof. reflexivity. Qed.

Lemma bind_assoc {A B C} (m : M A) (k1 : A -> M B) (k2 : B -> M C) h :
  bind (bind m k1) k2 h = bind m (fun a => bind (k1 a) k2) h.
Proof. unfold bind. destruct (m h) as [[a|x|] h']; reflexivity. Qed.

Lemma bind_returned {A B} (m : M A) (k : A -> M B) h a h' :
  m h = (Returned a, h') -> bind m k h = k a h'.
Proof. unfold bind. now intros ->. Qed.

Lemma bind_raised {A B} (m : M A) (k : A -> M B) h x h' :
  m h = (Raised x, h') -> bind m k h = (Raised x, h').
Proof. unfold bind. now intros ->. Qed.

Lemma merra2_body_steps : steps_with merra2_turn Merra2.loop_body.
Proof.
  intros d h. exists [DownloadFolder (Merra2.folder_url (year d))].
  split; [reflexivity|].
  cbv [Merra2.loop_body bind get_year ret emit py_add raise].
  destruct (Calendar.add d {| years := 1 |}); reflexivity.
Qed.

Lemma soil_moisture_body_steps :
  steps_with soil_moisture_turn EsacciSoilMoisture.loop_body.
Proof.
  intros d h. exists [DownloadYear (PyStr (str (year d)))].
  split; [reflexivity|].
  cbv [EsacciSoilMoisture.loop_body bind get_year ret emit py_add raise].
  destruct (Calendar.add d {| years := 1 |}); reflexivity.
Qed.

Lemma salinity_body_steps (env : Env) (version : string) :
  steps_with (salinity_turn version)
             (EsacciSeaSurfaceSalinity.loop_body env version).
Proof.
  intros d h.
  cbv [EsacciSeaSurfaceSalinity.loop_body EsacciSeaSurfaceSalinity.dl_exists
       bind get_year ret emit py_add raise].
  destruct (env_exists env h (str (year d))).
  - exists [Exists (str (year d)) true; DownloadYear (PyInt (year d))].
    split; [now left|]. rewrite <- app_assoc. cbn [app].
    destruct (Calendar.add d {| years := 1 |}); reflexivity.
  - exists [Exists (str (year d)) false;
            LogInfo (EsacciSeaSurfaceSalinity.not_available (year d) version)].
    split; [now right|]. rewrite <- app_assoc. cbn [app].
    destruct (Calendar.add d {| years := 1 |}); reflexivity.
Qed.

Lemma single_turns {A} (f : A -> event) (l : list A) (blocks : list trace) :
  Forall2 (fun a evs => evs = [f a]) l blocks ->
  List.concat blocks = map f l.
Proof. induction 1 as [|a evs l bs -> _ IH]; cbn; [|rewrite IH]; reflexivity. Qed.

Lemma merra2_run cfg ds (s e : datetime) ow :
  exists dates o,
    year_chain e s dates o /\
    run (Merra2.download_dataset cfg ds (Some s) (Some e) ow) =
      (o, New "NASADownloader" cfg ds ow
          :: map (fun d => DownloadFolder (Merra2.folder_url (year d))) dates).
Proof.
  destruct (while_loop_chain _ _ merra2_body_steps s e
              [New "NASADownloader" cfg ds ow])
    as (dates & blocks & o & Hrun & Hch & HF).
  exists dates, o. split; [exact Hch|].
  unfold run, Merra2.download_dataset, bind. cbn [emit app].
  rewrite Hrun. f_equal. cbn [app]. f_equal.
  now apply single_turns.
Qed.

Lemma soil_moisture_run cfg ds (s e : datetime) ow :
  exists dates o,
    year_chain e s dates o /\
    run (EsacciSoilMoisture.download_dataset cfg ds (Some s) (Some e) ow) =
      (o, soil_moisture_prelude cfg ds ow
          ++ map (fun d => DownloadYear (PyStr (str (year d)))) dates).
Proof.
  destruct (while_loop_chain _ _ soil_moisture_body_steps s e
              (soil_moisture_prelude cfg ds ow))
    as (dates & blocks & o & Hrun & Hch & HF).
  exists dates, o. split; [exact Hch|].
  unfold run, EsacciSoilMoisture.download_dataset, bind.
  cbn [emit app default_if_none].
  unfold soil_moisture_prelude in Hrun. rewrite Hrun. f_equal.
  unfold soil_moisture_prelude. f_equal.
  now apply single_turns.
Qed.

(** The salinity script walks the year chain once per version; when the
    year overflows in the first walk, the second version is not reached. *)
Lemma salinity_run env cfg ds (s e : datetime) ow :
  exists dates o b1,
    year_chain e s dates o /\
    Forall2 (salinity_turn "v01.8") dates b1 /\
    match o with
    | Returned _ =>
        exists b2,
          Forall2 (salinity_turn "v02.31") dates b2 /\
          run (EsacciSeaSurfaceSalinity.download_dataset
                 env cfg ds (Some s) (Some e) ow) =
            (Returned tt,
             [New "CCIDownloader" cfg ds ow; Connect]
             ++ SetCwd "v01.8/30days" :: List.concat b1
             ++ SetCwd "v02.31/30days" :: List.concat b2)
    | _ =>
        run (EsacciSeaSurfaceSalinity.download_dataset
               env cfg ds (Some s) (Some e) ow) =
          (o, [New "CCIDownloader" cfg ds ow; Connect]
              ++ SetCwd "v01.8/30days" :: List.concat b1)
    end.
Proof.
  destruct (while_loop_chain _ _ (salinity_body_steps env "v01.8") s e
              [New "CCIDownloader" cfg ds ow; Connect; SetCwd "v01.8/30days"])
    as (dates & b1 & o & Hrun1 & Hch & HF1).
  exists dates, o, b1. split; [exact Hch|]. split; [exact HF1|].
  unfold run, EsacciSeaSurfaceSalinity.download_dataset,
    EsacciSeaSurfaceSalinity.versions.
  cbn [for_each default_if_none]. rewrite !bind_emit. cbn [app String.append].
  destruct (year_chain_outcome _ _ _ _ Hch) as [-> | ->].
  - destruct (while_loop_chain _ _ (salinity_body_steps env "v02.31") s e
                (([New "CCIDownloader" cfg ds ow; Connect; SetCwd "v01.8/30days"]
                  ++ List.concat b1) ++ [SetCwd "v02.31/30days"]))
      as (dates2 & b2 & o2 & Hrun2 & Hch2 & HF2).
    destruct (year_chain_functional _ _ _ _ Hch _ _ Hch2) as [<- <-].
    exists b2. split; [exact HF2|].
    rewrite bind_assoc, bind_emit. cbn [app].
    rewrite (bind_returned _ _ _ _ _ Hrun1), bind_assoc, bind_emit.
    rewrite (bind_returned _ _ _ _ _ Hrun2). cbn [ret].
    f_equal. rewrite <- !app_assoc. reflexivity.
  - rewrite bind_assoc, bind_emit. cbn [app].
    now rewrite (bind_raised _ _ _ _ _ Hrun1).
Qed.

End Turns.

(* ================================================================== *)
(** ** Default dates *)

Section Defaults.

Lemma default_if_none_some (v : pydate) (d : datetime) :
  exists d', default_if_none v d = Some d'.
Proof. destruct v; cbn; eauto. Qed.

Lemma salinity_defaults env cfg ds (s e : pydate) ow :
  EsacciSeaSurfaceSalinity.download_dataset env cfg ds s e ow =
  EsacciSeaSurfaceSalinity.download_dataset env cfg ds
    (default_if_none s EsacciSeaSurfaceSalinity.default_start)
    (default_if_none e EsacciSeaSurfaceSalinity.default_end) ow.
Proof. destruct s, e; reflexivity. Qed.

Lemma soil_moisture_defaults cfg ds (s e : pydate) ow :
  EsacciSoilMoisture.download_dataset cfg ds s e ow =
  EsacciSoilMoisture.download_dataset cfg ds
    (default_if_none s EsacciSoilMoisture.default_start)
    (default_if_none e EsacciSoilMoisture.default_end) ow.
Proof. destruct s, e; reflexivity. Qed.

End Defaults.

(* ================================================================== *)
(** ** Guarded downloads *)

Section Guards.

Lemma guarded_turns version dates blocks :
  Forall2 (salinity_turn version) dates blocks ->
  forall rest, well_guarded (List.concat blocks ++ rest) = well_guarded rest.
Proof.
  induction 1 as [|d evs dates blocks [-> | ->] _ IH]; intros rest.
  - reflexivity.
  - cbn [List.concat app well_guarded]. now rewrite String.eqb_refl, IH.
  - cbn [List.concat app well_guarded]. now rewrite IH.
Qed.

Ltac split_head H :=
  match type of H with
  | _ :: _ = ?t1 ++ _ :: _ =>
      let x := fresh "x" in
      let Hx := fresh "Hx" in
      destruct t1 as [|x t1]; cbn [app] in H;
      injection H as Hx H; try discriminate; try subst x
  end.

Lemma well_guarded_spec (n : nat) :
  forall t, (List.length t <= n)%nat -> well_guarded t = true ->
    download_follows_check t /\ failed_check_skips t.
Proof.
  induction n as [|n IH]; intros t Hlen Hg.
  - destruct t; [|cbn in Hlen; lia].
    split; intros t1 ? t2 H; now destruct t1.
  - destruct t as [|ev r].
    { split; intros t1 ? t2 H; now destruct t1. }
    cbn [List.length] in Hlen.
    destruct ev as [ | | | | | nm [|] | | | | | ]; cbn [well_guarded] in Hg;
      try discriminate;
      try (destruct (IH r ltac:(lia) Hg) as [IHa IHb];
           split; intros t1 y t2 H; split_head H;
           [ destruct (IHa _ _ _ H) as (t0 & z & -> & ->);
             eexists (_ :: t0), z; split; reflexivity
           | destruct (IHb _ _ _ H) as (msg0 & t3 & ->); eauto ]).
    + destruct r as [|[ | | | | | | [z|] | | | | ] r']; try discriminate.
      apply andb_true_iff in Hg. destruct Hg as [Hnm Hg].
      apply String.eqb_eq in Hnm. subst nm. cbn [List.length] in Hlen.
      destruct (IH r' ltac:(lia) Hg) as [IHa IHb].
      split; intros t1 y t2 H; split_head H; split_head H.
      * subst y. exists [], z. split; reflexivity.
      * destruct (IHa _ _ _ H) as (t0 & z' & -> & ->).
        eexists (_ :: _ :: t0), z'. split; reflexivity.
      * destruct (IHb _ _ _ H) as (msg & t3 & ->). eauto.
    + destruct r as [|[ | | | | | | | | | | msg] r']; try discriminate.
      cbn [List.length] in Hlen.
      destruct (IH r' ltac:(lia) Hg) as [IHa IHb].
      split; intros t1 y t2 H; split_head H.
      * split_head H.
        destruct (IHa _ _ _ H) as (t0 & z' & -> & ->).
        eexists (_ :: _ :: t0), z'. split; reflexivity.
      * eauto.
      * split_head H.
        destruct (IHb _ _ _ H) as (msg' & t3 & ->). eauto.
Qed.

Lemma well_guarded_checks (t : trace) :
  well_guarded t = true -> download_follows_check t /\ failed_check_skips t.
Proof. apply (well_guarded_spec (List.length t)). lia. Qed.

Lemma salinity_well_guarded env cfg ds (s e : pydate) ow :
  well_guarded
    (calls (EsacciSeaSurfaceSalinity.download_dataset env cfg ds s e ow))
  = true.
Proof.
  assert (Hd : forall s' e' : datetime,
    well_guarded (calls (EsacciSeaSurfaceSalinity.download_dataset
                           env cfg ds (Some s') (Some e') ow)) = true).
  { intros s' e'.
    destruct (salinity_run env cfg ds s' e' ow)
      as (dates & o & b1 & Hch & HF1 & Hrun).
    unfold calls.
    destruct o as [[]|x|].
    - destruct Hrun as (b2 & HF2 & ->). cbn [snd app well_guarded].
      rewrite (guarded_turns _ _ _ HF1). cbn [well_guarded].
      rewrite <- (app_nil_r (List.concat b2)).
      now rewrite (guarded_turns _ _ _ HF2).
    - rewrite Hrun. cbn [snd app well_guarded].
      rewrite <- (app_nil_r (List.concat b1)).
      now rewrite (guarded_turns _ _ _ HF1).
    - rewrite Hrun. cbn [snd app well_guarded].
      rewrite <- (app_nil_r (List.concat b1)).
      now rewrite (guarded_turns _ _ _ HF1). }
  rewrite salinity_defaults.
  destruct (default_if_none_some s EsacciSeaSurfaceSalinity.default_start)
    as [s' ->].
  destruct (default_if_none_some e EsacciSeaSurfaceSalinity.default_end)
    as [e' ->].
  apply Hd.
Qed.

End Guards.

(* ================================================================== *)
(** ** The date-range iteration *)

Section DateRange.

(** C1 (amended): with two datetimes, each year loop walks the year chain:
    the first loop date is [start_date] when it is [<= end_date], each
    further loop date is [relativedelta(years=1)] after the one before,
    years going up one by one, and the walk ends at the first loop date
    past [end_date] (or with [ValueError] past year 9999); with
    [start_date > end_date] there is no loop date.  merra2.py calls
    [download_folder] and esacci_soil_moisture.py calls [download_year]
    exactly once per loop date, in that order.
    esacci_sea_surface_salinity.py walks the chain once per version,
    [v01.8] then [v02.31], asks [exists(str(year))] once per loop date and
    calls [download_year(year)] only where the answer was true. *)
Theorem year_loops_walk_the_year_chain :
  forall (env : Env) (cfg : config) (ds : string) (s e : datetime)
         (ow : bool),
  exists (dates : list datetime) (o : outcome unit),
    year_chain e s dates o /\
    (if Calendar.le s e then hd_error dates = Some s else dates = []) /\
    StronglySorted (fun a b => year a < year b) dates /\
    map year dates = years_from (year s) (List.length dates) /\
    run (Merra2.download_dataset cfg ds (Some s) (Some e) ow) =
      (o, New "NASADownloader" cfg ds ow
          :: map (fun d => DownloadFolder (Merra2.folder_url (year d)))
                 dates) /\
    run (EsacciSoilMoisture.download_dataset cfg ds (Some s) (Some e) ow) =
      (o, soil_moisture_prelude cfg ds ow
          ++ map (fun d => DownloadYear (PyStr (str (year d)))) dates) /\
    exists b1 : list trace,
      Forall2 (salinity_turn "v01.8") dates b1 /\
      match o with
      | Returned _ =>
          exists b2 : list trace,
            Forall2 (salinity_turn "v02.31") dates b2 /\
            run (EsacciSeaSurfaceSalinity.download_dataset
                   env cfg ds (Some s) (Some e) ow) =
              (Returned tt,
               [New "CCIDownloader" cfg ds ow; Connect]
               ++ SetCwd "v01.8/30days" :: List.concat b1
               ++ SetCwd "v02.31/30days" :: List.concat b2)
      | _ =>
          run (EsacciSeaSurfaceSalinity.download_dataset
                 env cfg ds (Some s) (Some e) ow) =
            (o, [New "CCIDownloader" cfg ds ow; Connect]
                ++ SetCwd "v01.8/30days" :: List.concat b1)
      end.
Proof.
  intros env cfg ds s e ow.
  destruct (merra2_run cfg ds s e ow) as (dates & o & Hch & Hm).
  destruct (soil_moisture_run cfg ds s e ow) as (dates2 & o2 & Hch2 & Hs).
  destruct (salinity_run env cfg ds s e ow)
    as (dates3 & o3 & b1 & Hch3 & HF1 & Hsal).
  destruct (year_chain_functional _ _ _ _ Hch _ _ Hch2) as [<- <-].
  destruct (year_chain_functional _ _ _ _ Hch _ _ Hch3) as [<- <-].
  exists dates, o. repeat split; try assumption.
  - exact (year_chain_start _ _ _ _ Hch).
  - exact (year_chain_sorted _ _ _ _ Hch).
  - exact (year_chain_years _ _ _ _ Hch).
  - exists b1. split; assumption.
Qed.

(** C1 as stated fails for esacci_sea_surface_salinity.py: with
    [start_date = end_date = 2010-01-01] and a server on which [exists]
    answers false, the one loop date is never downloaded. *)
Lemma salinity_skips_loop_dates :
  ~ (forall env cfg ds s e ow,
       Calendar.le s e = true ->
       exists dates o,
         year_chain e s dates o /\
         download_year_calls
           (calls (EsacciSeaSurfaceSalinity.download_dataset
                     env cfg ds (Some s) (Some e) ow))
         = map (fun d => PyInt (year d)) dates).
Proof.
  intros H.
  destruct (H (env_const false) [] "ESACCI-SEA-SURFACE-SALINITY"
              (date3 2010 1 1) (date3 2010 1 1) false eq_refl)
    as (dates & o & Hch & Heq).
  vm_compute in Heq. destruct dates; [|discriminate].
  inversion Hch as [d Hle | |]. discriminate.
Qed.

(** On such a server nothing is downloaded, and on one where [exists]
    answers true every year is downloaded once per version. *)
Example salinity_one_year :
  download_year_calls
    (calls (EsacciSeaSurfaceSalinity.download_dataset (env_const false) []
              "ESACCI-SEA-SURFACE-SALINITY"
              (Some (date3 2010 1 1)) (Some (date3 2010 1 1)) false)) = []
  /\ download_year_calls
    (calls (EsacciSeaSurfaceSalinity.download_dataset (env_const true) []
              "ESACCI-SEA-SURFACE-SALINITY"
              (Some (date3 2010 1 1)) (Some (date3 2011 1 1)) false))
     = [PyInt 2010; PyInt 2011; PyInt 2010; PyInt 2011].
Proof. split; reflexivity. Qed.

(** A start on the 29th of February: the day is clamped once and stays. *)
Example leap_day_walk :
  walk 6 (date3 2020 2 29) (date3 2024 2 28) =
    ([date3 2020 2 29; date3 2021 2 28; date3 2022 2 28; date3 2023 2 28;
      date3 2024 2 28], Returned tt).
Proof. reflexivity. Qed.

Example merra2_three_years :
  run (Merra2.download_dataset [] "MERRA2" (Some (date3 2000 1 1))
         (Some (date3 2002 6 1)) false) =
    (Returned tt,
     [New "NASADownloader" [] "MERRA2" false;
      DownloadFolder (Merra2.folder_url 2000);
      DownloadFolder (Merra2.folder_url 2001);
      DownloadFolder (Merra2.folder_url 2002)]).
Proof. reflexivity. Qed.

(** At the last year a datetime can hold the increment raises, after the
    download of that year. *)
Example soil_moisture_last_year :
  run (EsacciSoilMoisture.download_dataset [] "ESACCI-SOILMOISTURE"
         (Some (date3 9999 1 1)) (Some (date3 9999 12 31)) false) =
    (Raised ValueError,
     soil_moisture_prelude [] "ESACCI-SOILMOISTURE" false
     ++ [DownloadYear (PyStr "9999")]).
Proof. reflexivity. Qed.

End DateRange.

(* ================================================================== *)
(** ** Existence checks *)

Section ExistenceChecks.

Lemma soil_moisture_calls cfg ds (s e : pydate) ow :
  exists years : list Z,
    calls (EsacciSoilMoisture.download_dataset cfg ds s e ow) =
      soil_moisture_prelude cfg ds ow
      ++ map (fun y => DownloadYear (PyStr (str y))) years.
Proof.
  assert (Hd : forall s' e' : datetime, exists years : list Z,
    calls (EsacciSoilMoisture.download_dataset cfg ds (Some s') (Some e') ow) =
      soil_moisture_prelude cfg ds ow
      ++ map (fun y => DownloadYear (PyStr (str y))) years).
  { intros s' e'.
    destruct (soil_moisture_run cfg ds s' e' ow) as (dates & o & _ & Hrun).
    exists (map year dates). unfold calls. rewrite Hrun. cbn [snd].
    now rewrite map_map. }
  rewrite soil_moisture_defaults.
  destruct (default_if_none_some s EsacciSoilMoisture.default_start)
    as [s' ->].
  destruct (default_if_none_some e EsacciSoilMoisture.default_end)
    as [e' ->].
  apply Hd.
Qed.

(** C2 (amended): in esacci_sea_surface_salinity.py every
    [download_year(year)] call comes right after [exists(str(year))]
    answered true, and after an answer false the script logs the year and
    goes on without downloading it.  esacci_soil_moisture.py makes no
    existence check at all. *)
Theorem salinity_downloads_only_checked_years :
  forall (env : Env) (cfg : config) (ds : string) (s e : pydate) (ow : bool),
    download_follows_check
      (calls (EsacciSeaSurfaceSalinity.download_dataset env cfg ds s e ow))
    /\ failed_check_skips
      (calls (EsacciSeaSurfaceSalinity.download_dataset env cfg ds s e ow))
    /\ existsb is_exists
      (calls (EsacciSoilMoisture.download_dataset cfg ds s e ow)) = false.
Proof.
  intros env cfg ds s e ow.
  destruct (well_guarded_checks _ (salinity_well_guarded env cfg ds s e ow))
    as [Ha Hb].
  repeat split; try assumption.
  destruct (soil_moisture_calls cfg ds s e ow) as (years & ->).
  rewrite existsb_app. cbn [soil_moisture_prelude existsb is_exists orb].
  induction years as [|y years IH]; [reflexivity|exact IH].
Qed.

(** C2 as stated fails for esacci_soil_moisture.py: for the year 1979 it
    calls [download_year] and no [exists] call came before. *)
Lemma soil_moisture_downloads_unchecked :
  ~ (forall cfg ds s e ow,
       confirmed_first
         (calls (EsacciSoilMoisture.download_dataset cfg ds s e ow))).
Proof.
  intros H.
  specialize (H [] "ESACCI-SOILMOISTURE" (Some (date3 1979 1 1))
                (Some (date3 1979 1 1)) false
                (soil_moisture_prelude [] "ESACCI-SOILMOISTURE" false)
                (PyStr "1979") [] eq_refl).
  cbn in H. repeat (destruct H as [H|H]; [discriminate|]). exact H.
Qed.

End ExistenceChecks.

(* ================================================================== *)
(** ** What the scripts touch on a downloader *)

Section DownloaderInterface.

Lemma touches_only_app extra t1 t2 :
  touches_only extra t1 -> touches_only extra t2 ->
  touches_only extra (t1 ++ t2).
Proof. unfold touches_only. intros. now apply Forall_app. Qed.

Lemma touches_only_turns extra version dates blocks :
  Forall2 (salinity_turn version) dates blocks ->
  touches_only extra (List.concat blocks).
Proof.
  induction 1 as [|d evs dates blocks [-> | ->] _ IH]; cbn [List.concat].
  - constructor.
  - apply touches_only_app; [|exact IH]. repeat constructor.
  - apply touches_only_app; [|exact IH].
    repeat constructor; discriminate.
Qed.

Lemma touches_only_map {A} extra (f : A -> event) (l : list A) :
  (forall a, interface_op (f a) = true) ->
  touches_only extra (map f l).
Proof.
  intros Hf. apply Forall_map, Forall_forall. intros a _ _.
  rewrite Hf. now rewrite orb_true_r.
Qed.

Lemma merra2_touches cfg ds (s e : pydate) ow :
  touches_only no_attribute (calls (Merra2.download_dataset cfg ds s e ow)).
Proof.
  destruct s as [s'|], e as [e'|];
    [|constructor; [reflexivity|constructor]..].
  destruct (merra2_run cfg ds s' e' ow) as (dates & o & _ & Hrun).
  unfold calls. rewrite Hrun. cbn [snd].
  constructor; [reflexivity|]. now apply touches_only_map.
Qed.

Lemma soil_moisture_touches cfg ds (s e : pydate) ow :
  touches_only soil_moisture_attribute
    (calls (EsacciSoilMoisture.download_dataset cfg ds s e ow)).
Proof.
  destruct (soil_moisture_calls cfg ds s e ow) as (years & ->).
  apply touches_only_app; [repeat constructor|].
  now apply touches_only_map.
Qed.

Lemma salinity_touches env cfg ds (s e : pydate) ow :
  touches_only no_attribute
    (calls (EsacciSeaSurfaceSalinity.download_dataset env cfg ds s e ow)).
Proof.
  assert (Hd : forall s' e' : datetime,
    touches_only no_attribute
      (calls (EsacciSeaSurfaceSalinity.download_dataset
                env cfg ds (Some s') (Some e') ow))).
  { intros s' e'.
    destruct (salinity_run env cfg ds s' e' ow)
      as (dates & o & b1 & Hch & HF1 & Hrun).
    pose proof (touches_only_turns no_attribute _ _ _ HF1) as H1.
    unfold calls.
    destruct o as [[]|x|].
    - destruct Hrun as (b2 & HF2 & ->). cbn [snd].
      pose proof (touches_only_turns no_attribute _ _ _ HF2) as H2.
      apply touches_only_app; [repeat constructor|].
      constructor; [reflexivity|]. apply touches_only_app; [exact H1|].
      constructor; [reflexivity|exact H2].
    - rewrite Hrun. cbn [snd].
      apply touches_only_app; [repeat constructor|].
      constructor; [reflexivity|exact H1].
    - rewrite Hrun. cbn [snd].
      apply touches_only_app; [repeat constructor|].
      constructor; [reflexivity|exact H1]. }
  rewrite salinity_defaults.
  destruct (default_if_none_some s EsacciSeaSurfaceSalinity.default_start)
    as [s' ->].
  destruct (default_if_none_some e EsacciSeaSurfaceSalinity.default_end)
    as [e' ->].
  apply Hd.
Qed.

(** C3 (amended): the four scripts create their downloader and call on it
    only [connect], [set_cwd], [exists], [download_year],
    [download_folder] and [download_file]; next to these, hadcrut4.py
    writes [tier = 2] and reads [local_folder], and
    esacci_soil_moisture.py writes [ftp_name = 'soil_moisture'].  No other
    attribute is read or written. *)
Theorem scripts_touch_only_the_interface :
  forall (env : Env) (cfg : config) (ds : string) (s e : pydate) (ow : bool),
    touches_only no_attribute
      (calls (Merra2.download_dataset cfg ds s e ow))
    /\ touches_only no_attribute
      (calls (EsacciSeaSurfaceSalinity.download_dataset env cfg ds s e ow))
    /\ touches_only soil_moisture_attribute
      (calls (EsacciSoilMoisture.download_dataset cfg ds s e ow))
    /\ touches_only hadcrut4_attribute
      (calls (Hadcrut4.download_dataset env cfg ds s e ow)).
Proof.
  intros env cfg ds s e ow. split; [|split; [|split]].
  - apply merra2_touches.
  - apply salinity_touches.
  - apply soil_moisture_touches.
  - unfold calls, touches_only. cbn.
    repeat (constructor; [intros Hon; first [reflexivity|discriminate]|]).
    constructor.
Qed.

(** C3 as stated fails: hadcrut4.py sets [downloader.tier] and reads
    [downloader.local_folder], esacci_soil_moisture.py sets
    [downloader.ftp_name]. *)
Lemma scripts_access_attributes :
  ~ (forall env cfg ds s e ow,
       touches_only no_attribute
         (calls (Hadcrut4.download_dataset env cfg ds s e ow)))
  /\ ~ (forall cfg ds s e ow,
       touches_only no_attribute
         (calls (EsacciSoilMoisture.download_dataset cfg ds s e ow))).
Proof.
  split; intros H.
  - specialize (H (env_const true) [] "HadCRUT4" None None false).
    inversion H as [|? ? _ H1]. inversion H1 as [|? ? Htier _].
    specialize (Htier eq_refl). discriminate.
  - specialize (H [] "ESACCI-SOILMOISTURE" None None false).
    destruct (soil_moisture_calls [] "ESACCI-SOILMOISTURE" None None false)
      as (years & Hc).
    rewrite Hc in H. cbn [soil_moisture_prelude app] in H.
    inversion H as [|? ? _ H1]. inversion H1 as [|? ? Hftp _].
    specialize (Hftp eq_refl). discriminate.
Qed.

(** Each of the six operations is used by some script. *)
Example six_operations_in_use :
  let soil := calls (EsacciSoilMoisture.download_dataset
                       [] "ESACCI-SOILMOISTURE" None None false) in
  let sal := calls (EsacciSeaSurfaceSalinity.download_dataset
                      (env_const true) [] "ESACCI-SEA-SURFACE-SALINITY"
                      None None false) in
  let had := calls (Hadcrut4.download_dataset
                      (env_const true) [] "HadCRUT4" None None false) in
  In Connect soil /\ In (SetCwd "ancillary/v04.2/") soil /\
  In (DownloadFolder ".") soil /\ In (DownloadYear (PyStr "1979")) soil /\
  In (Exists "2010" true) sal /\ In (DownloadYear (PyInt 2010)) sal /\
  In (DownloadFile Hadcrut4.absolute_url []) had.
Proof. vm_compute. intuition. Qed.

End DownloaderInterface.

(* ================================================================== *)
(** ** Missing dates *)

Section MissingDates.

Lemma exists_names_app t1 t2 :
  exists_names (t1 ++ t2) = exists_names t1 ++ exists_names t2.
Proof. apply flat_map_app. Qed.

Lemma exists_names_turns version dates blocks :
  Forall2 (salinity_turn version) dates blocks ->
  exists_names (List.concat blocks) = map (fun d => str (year d)) dates.
Proof.
  induction 1 as [|d evs dates blocks [-> | ->] _ IH]; cbn [List.concat].
  - reflexivity.
  - rewrite exists_names_app, IH. reflexivity.
  - rewrite exists_names_app, IH. reflexivity.
Qed.

(** C8: a missing [start_date] or [end_date] is replaced before anything
    else happens, by 2010-01-01 and 2019-01-01 in
    esacci_sea_surface_salinity.py and by 1979-01-01 and 2016-01-01 in
    esacci_soil_moisture.py: the call is the call with the default passed
    in.  With both dates missing the salinity script asks for the years
    2010 to 2019 in each version and the soil-moisture script downloads
    the years 1979 to 2016. *)
Theorem missing_dates_take_defaults :
  forall (env : Env) (cfg : config) (ds : string) (s e : pydate) (ow : bool),
    EsacciSeaSurfaceSalinity.download_dataset env cfg ds None e ow =
      EsacciSeaSurfaceSalinity.download_dataset env cfg ds
        (Some (date3 2010 1 1)) e ow
    /\ EsacciSeaSurfaceSalinity.download_dataset env cfg ds s None ow =
      EsacciSeaSurfaceSalinity.download_dataset env cfg ds
        s (Some (date3 2019 1 1)) ow
    /\ EsacciSoilMoisture.download_dataset cfg ds None e ow =
      EsacciSoilMoisture.download_dataset cfg ds (Some (date3 1979 1 1)) e ow
    /\ EsacciSoilMoisture.download_dataset cfg ds s None ow =
      EsacciSoilMoisture.download_dataset cfg ds s (Some (date3 2016 1 1)) ow
    /\ exists_names
         (calls (EsacciSeaSurfaceSalinity.download_dataset
                   env cfg ds None None ow))
       = map str (years_from 2010 10) ++ map str (years_from 2010 10)
    /\ run (EsacciSoilMoisture.download_dataset cfg ds None None ow) =
       (Returned tt,
        soil_moisture_prelude cfg ds ow
        ++ map (fun y => DownloadYear (PyStr (str y))) (years_from 1979 38)).
Proof.
  intros env cfg ds s e ow.
  split; [reflexivity|]. split; [destruct s; reflexivity|].
  split; [reflexivity|]. split; [destruct s; reflexivity|].
  split; [|vm_compute; reflexivity].
  rewrite salinity_defaults. cbn [default_if_none].
  destruct (salinity_run env cfg ds EsacciSeaSurfaceSalinity.default_start
              EsacciSeaSurfaceSalinity.default_end ow)
    as (dates & o & b1 & Hch & HF1 & Hrun).
  pose proof (walk_chain 11 EsacciSeaSurfaceSalinity.default_start
                EsacciSeaSurfaceSalinity.default_end ltac:(vm_compute; lia))
    as Hw.
  destruct (year_chain_functional _ _ _ _ Hch _ _ Hw) as [Hd Ho].
  vm_compute in Ho. subst o. destruct Hrun as (b2 & HF2 & Hrun).
  unfold calls. rewrite Hrun. cbn [snd].
  change ([New "CCIDownloader" cfg ds ow; Connect]
          ++ SetCwd "v01.8/30days" :: List.concat b1
          ++ SetCwd "v02.31/30days" :: List.concat b2)
    with ([New "CCIDownloader" cfg ds ow; Connect; SetCwd "v01.8/30days"]
          ++ List.concat b1 ++ [SetCwd "v02.31/30days"] ++ List.concat b2).
  rewrite !exists_names_app.
  rewrite (exists_names_turns _ _ _ HF1), (exists_names_turns _ _ _ HF2), Hd.
  vm_compute. reflexivity.
Qed.

(** C9: merra2.py has no defaults.  With [start_date] or [end_date]
    missing, the first evaluation of [loop_date <= end_date] raises
    [TypeError]; by then the downloader has been created and nothing has
    been downloaded. *)
Theorem merra2_needs_both_dates :
  forall (cfg : config) (ds : string) (s e : pydate) (ow : bool),
    s = None \/ e = None ->
    run (Merra2.download_dataset cfg ds s e ow) =
      (Raised (TypeError "<=" (type_of s) (type_of e)),
       [New "NASADownloader" cfg ds ow]).
Proof.
  intros cfg ds s e ow [-> | ->]; [destruct e|destruct s]; reflexivity.
Qed.

Lemma merra2_needs_both_dates_witness :
  run (Merra2.download_dataset [] "MERRA2" (Some (date3 2000 1 1)) None true)
  = (Raised (TypeError "<=" DatetimeType NoneType),
     [New "NASADownloader" [] "MERRA2" true]).
Proof.
  apply (merra2_needs_both_dates [] "MERRA2" (Some (date3 2000 1 1)) None true).
  right. reflexivity.
Defined.

End MissingDates.

(* ================================================================== *)
(** ** hadcrut4.py *)

Section HadCRUT4.

(** C10: hadcrut4.py does not look at the date interval: two calls that
    differ only in the dates are the same computation, which creates the
    downloader, sets [tier], makes the local folder and then downloads
    [HadCRUT.4.6.0.0.median.nc] and [absolute.nc], in this order. *)
Theorem hadcrut4_ignores_dates :
  forall (env : Env) (cfg : config) (ds : string) (s1 e1 s2 e2 : pydate)
         (ow : bool),
    Hadcrut4.download_dataset env cfg ds s1 e1 ow =
      Hadcrut4.download_dataset env cfg ds s2 e2 ow
    /\ let folder :=
         env_local_folder env [New "WGetDownloader" cfg ds ow;
                               SetAttr "tier" (PyInt 2)] in
       run (Hadcrut4.download_dataset env cfg ds s1 e1 ow) =
         (Returned tt,
          [New "WGetDownloader" cfg ds ow;
           SetAttr "tier" (PyInt 2);
           GetAttr "local_folder" folder;
           Makedirs folder true;
           DownloadFile
             "https://crudata.uea.ac.uk/cru/data/temperature/HadCRUT.4.6.0.0.median.nc"
             [];
           DownloadFile
             "https://crudata.uea.ac.uk/cru/data/temperature/absolute.nc"
             []]).
Proof. intros. split; reflexivity. Qed.

End HadCRUT4.

(* ================================================================== *)
(** ** The surge-height pipeline: shapes *)

Import SurgeHeight.

Section Shapes.

Context {R : Type} {S : Scalar R}.

Lemma centred_length {A} (minus : A -> A -> A) (edge centre : A -> A) l :
  forall prev,
    List.length (centred minus edge centre prev l) = List.length l.
Proof.
  induction l as [|x tl IH]; intros prev; [reflexivity|].
  cbn [centred]. destruct tl as [|y tl']; [reflexivity|].
  cbn [List.length]. now rewrite IH.
Qed.

Lemma differences_length {A} (minus : A -> A -> A) (edge centre : A -> A) l :
  List.length (differences minus edge centre l) = List.length l.
Proof.
  destruct l as [|x [|y tl]]; try reflexivity.
  cbn [differences List.length]. now rewrite centred_length.
Qed.

Lemma centred_Forall {A} (Q : A -> Prop) (minus : A -> A -> A)
    (edge centre : A -> A) :
  (forall a b, Q a -> Q b -> Q (minus a b)) ->
  (forall a, Q a -> Q (edge a)) -> (forall a, Q a -> Q (centre a)) ->
  forall l prev, Q prev -> Forall Q l ->
    Forall Q (centred minus edge centre prev l).
Proof.
  intros Hm He Hc. induction l as [|x tl IH]; intros prev Hp Hl.
  - constructor.
  - inversion Hl as [|? ? Hx Htl]; subst. cbn [centred].
    destruct tl as [|y tl'].
    + repeat constructor. auto.
    + inversion Htl; subst. constructor; auto.
Qed.

Lemma differences_Forall {A} (Q : A -> Prop) (minus : A -> A -> A)
    (edge centre : A -> A) :
  (forall a b, Q a -> Q b -> Q (minus a b)) ->
  (forall a, Q a -> Q (edge a)) -> (forall a, Q a -> Q (centre a)) ->
  forall l, Forall Q l -> Forall Q (differences minus edge centre l).
Proof.
  intros Hm He Hc l Hl. destruct l as [|x [|y tl]].
  - constructor.
  - inversion Hl; subst. repeat constructor. auto.
  - inversion Hl as [|? ? Hx Htl]; subst. inversion Htl; subst.
    cbn [differences]. constructor; [auto|].
    apply centred_Forall; auto.
Qed.

Lemma zip_with_length {A B C} (op : A -> B -> C) l1 :
  forall l2, List.length (zip_with op l1 l2)
             = Nat.min (List.length l1) (List.length l2).
Proof.
  induction l1 as [|a l1 IH]; intros [|b l2]; cbn; auto.
Qed.

Lemma same_lengths {A B} (c : nat) (l1 : list (list A)) :
  forall l2 : list (list B),
    List.length l1 = List.length l2 ->
    Forall (fun r => List.length r = c) l1 ->
    Forall (fun r => List.length r = c) l2 ->
    map (@List.length A) l1 = map (@List.length B) l2.
Proof.
  induction l1 as [|r1 l1 IH]; intros [|r2 l2] Hlen H1 H2;
    try discriminate; [reflexivity|].
  inversion H1; inversion H2; subst. cbn. f_equal; [congruence|].
  apply IH; auto.
Qed.

(** C6: for a rectangular input field both gradient fields of [grad_psl]
    have the shape of the input: as many rows, and each row as long.
    ([grad_psl] is a function of the stencil and the field alone.) *)
Theorem grad_psl_keeps_shape :
  forall (st : Stencil) (rows cols : nat) (psl : grid),
    rectangular rows cols psl ->
    same_shape (fst (grad_psl st psl)) psl /\
    same_shape (snd (grad_psl st psl)) psl /\
    rectangular rows cols (fst (grad_psl st psl)) /\
    rectangular rows cols (snd (grad_psl st psl)).
Proof.
  intros st rows cols psl [Hrows Hcols]. cbn [grad_psl fst snd].
  assert (Hz : Forall (fun r => List.length r = cols)
            (map (differences rsub (rmul (edge_weight st))
                              (rmul (centre_weight st))) psl)).
  { apply Forall_map. eapply Forall_impl; [|exact Hcols].
    cbn. intros r Hr. now rewrite differences_length. }
  assert (Hm : Forall (fun r => List.length r = cols)
            (differences (zip_with rsub) (map (rmul (edge_weight st)))
                         (map (rmul (centre_weight st))) psl)).
  { apply differences_Forall; try assumption.
    - intros a b Ha Hb. rewrite zip_with_length, Ha, Hb. apply Nat.min_id.
    - intros a Ha. now rewrite length_map.
    - intros a Ha. now rewrite length_map. }
  unfold same_shape, shape, rectangular.
  rewrite length_map, differences_length.
  repeat split; try assumption.
  - f_equal. apply (same_lengths cols); try assumption. apply length_map.
  - f_equal. apply (same_lengths cols); try assumption.
    apply differences_length.
Qed.

End Shapes.

Lemma grad_psl_keeps_shape_witness :
  rectangular 3 4 sample_psl /\
  grad_psl unit_stencil sample_psl =
    ([[3; 8; 12; 7]; [1; 3; 5; 3]; [0; 7; 7; 0]],
     [[1; -1; -4; -8]; [-1; -4; -2; -9]; [-2; -3; 2; -1]]) /\
  same_shape (fst (grad_psl unit_stencil sample_psl)) sample_psl.
Proof.
  assert (Hr : rectangular 3 4 sample_psl)
    by (split; [reflexivity|repeat constructor]).
  split; [exact Hr|]. split; [reflexivity|].
  exact (proj1 (grad_psl_keeps_shape unit_stencil 3 4 sample_psl Hr)).
Defined.

(* ================================================================== *)
(** ** The surge-height pipeline: arithmetic *)

Section Arithmetic.

Context {R : Type} {S : Scalar R}.

Add Ring surge_ring : (scalar_ring (R := R)).




Lemma dot_zero_l (u : list R) :
  all_zero u -> forall v, dot u v = rO.
Proof.
  unfold dot. induction 1 as [|a u <- _ IH]; intros [|b v];
    cbn [zip_with total fold_right]; try reflexivity.
  fold (total (zip_with rmul u v)). rewrite IH. ring.
Qed.

Lemma dot_zero_r (v : list R) :
  all_zero v -> forall u, dot u v = rO.
Proof.
  unfold dot. induction 1 as [|a v <- _ IH]; intros [|b u];
    cbn [zip_with total fold_right]; try reflexivity.
  fold (total (zip_with rmul u v)). rewrite IH. ring.
Qed.

Lemma inner_zero_l (f : grid) :
  Forall all_zero f -> forall m, inner f m = rO.
Proof.
  unfold inner. induction 1 as [|r f Hr _ IH]; intros [|mr m];
    cbn [zip_with total fold_right]; try reflexivity.
  fold (total (zip_with dot f m)). rewrite IH, (dot_zero_l r Hr). ring.
Qed.

Lemma all_zero_repeat (n : nat) : all_zero (repeat rO n).
Proof. induction n; constructor; auto. Qed.

Lemma build_predictX_zero (f : grid) (eofs : list grid) :
  Forall all_zero f ->
  build_predictX f eofs = repeat rO (List.length eofs).
Proof.
  intros Hf. unfold build_predictX.
  induction eofs as [|m eofs IH]; [reflexivity|].
  cbn [map List.length repeat]. now rewrite IH, inner_zero_l.
Qed.

Lemma estimate_srg_zero (c : Coefficients) (n : nat) :
  n = List.length (betas c) ->
  estimate_srg (repeat rO n) c = inr (intercept c).
Proof.
  intros ->. unfold estimate_srg.
  rewrite repeat_length, Nat.eqb_refl.
  rewrite dot_zero_r by apply all_zero_repeat. f_equal. ring.
Qed.

(** C7: on the 2x2 field of zeros [grad_psl] returns two fields of zeros,
    [build_predictX] returns the zero vector for any EOF basis, and
    [estimate_srg] returns the intercept; a whole time step then stores
    exactly the intercept. *)
Theorem zero_field_gives_intercept :
  forall (st : Stencil) (eofs : list grid) (c : Coefficients)
         (written : list R),
    let zeros : grid := [[rO; rO]; [rO; rO]] in
    grad_psl st zeros = (zeros, zeros)
    /\ build_predictX zeros eofs = repeat rO (List.length eofs)
    /\ estimate_srg (repeat rO (List.length (betas c))) c = inr (intercept c)
    /\ (List.length (betas c) = (List.length eofs + List.length eofs)%nat ->
        surge_estimator_step st eofs c zeros written =
          (inr tt, written ++ [intercept c])).
Proof.
  intros st eofs c written zeros.
  assert (Hz : Forall all_zero zeros) by (repeat constructor).
  assert (Hg : grad_psl st zeros = (zeros, zeros)).
  { unfold grad_psl, zeros.
    cbn [map differences centred zip_with].
    repeat (f_equal; try ring). }
  split; [exact Hg|]. split; [now apply build_predictX_zero|].
  split; [now apply estimate_srg_zero|].
  intros Hlen. unfold surge_estimator_step. rewrite Hg.
  rewrite (build_predictX_zero zeros eofs Hz), <- repeat_app.
  rewrite estimate_srg_zero by (symmetry; exact Hlen). reflexivity.
Qed.

End Arithmetic.

Section Mismatch.

Context {R : Type} {S : Scalar R}.

Lemma build_predictX_length (g : grid) (eofs : list grid) :
  List.length (build_predictX g eofs) = List.length eofs.
Proof. apply length_map. Qed.

(** C4: when the predictor vector and the coefficient vector differ in
    length, [estimate_srg] fails with [DimensionMismatchError]; a time
    step whose predictor that is ends with this error and with the stored
    output as it was, and so does a run that starts with such a step. *)
Theorem estimate_srg_rejects_mismatch :
  forall (predictor : list R) (c : Coefficients),
    List.length predictor <> List.length (betas c) ->
    estimate_srg predictor c = inl DimensionMismatchError
    /\ forall (st : Stencil) (eofs : list grid) (psl : grid)
              (rest : list grid) (written : list R),
         build_predictX (fst (grad_psl st psl)) eofs
         ++ build_predictX (snd (grad_psl st psl)) eofs = predictor ->
         surge_estimator_step st eofs c psl written =
           (inl DimensionMismatchError, written)
         /\ surge_estimator st eofs c (psl :: rest) written =
           (inl DimensionMismatchError, written).
Proof.
  intros predictor c Hlen.
  assert (He : estimate_srg predictor c = inl DimensionMismatchError).
  { unfold estimate_srg.
    destruct (Nat.eqb_spec (List.length predictor) (List.length (betas c)));
      [contradiction|reflexivity]. }
  split; [exact He|].
  intros st eofs psl rest written Hp.
  assert (Hstep : surge_estimator_step st eofs c psl written =
                    (inl DimensionMismatchError, written)).
  { unfold surge_estimator_step.
    destruct (grad_psl st psl) as [gradlon gradlat]. cbn [fst snd] in Hp.
    now rewrite Hp, He. }
  split; [exact Hstep|]. cbn [surge_estimator]. now rewrite Hstep.
Qed.

End Mismatch.

(* ================================================================== *)
(** ** The pipeline on integer data *)


Section Binary64.

#[local] Existing Instance Numbers_binary64.


Example binary64_projections :
  build_predictX (gadd [[b64_tenth]] [[b64_fifth]]) [[[b64_ten]]]
    = [SpecFloat.S754_finite false 6755399441055745 (-51)]
  /\ vadd (build_predictX [[b64_tenth]] [[[b64_ten]]])
          (build_predictX [[b64_fifth]] [[[b64_ten]]])
    = [SpecFloat.S754_finite false 6755399441055744 (-51)].
Proof. split; vm_compute; reflexivity. Qed.

End Binary64.

Lemma zero_field_gives_intercept_witness :
  grad_psl unit_stencil [[0; 0]; [0; 0]] = ([[0; 0]; [0; 0]], [[0; 0]; [0; 0]])
  /\ build_predictX [[0; 0]; [0; 0]] sample_eofs = [0; 0]
  /\ estimate_srg [0; 0; 0; 0] four_betas = inr 7
  /\ surge_estimator_step unit_stencil sample_eofs four_betas
       [[0; 0]; [0; 0]] [] = (inr tt, [7]).
Proof.
  destruct (zero_field_gives_intercept unit_stencil sample_eofs
              four_betas []) as (Hg & Hx & He & Hstep).
  split; [exact Hg|]. split; [exact Hx|]. split; [exact He|].
  apply Hstep. reflexivity.
Defined.

Lemma estimate_srg_rejects_mismatch_witness :
  estimate_srg [5; 10; 9; 18] five_betas = inl DimensionMismatchError
  /\ surge_estimator_step unit_stencil sample_eofs five_betas
       [[1; 2]; [4; 8]] [3] = (inl DimensionMismatchError, [3])
  /\ surge_estimator unit_stencil sample_eofs five_betas
       [[[1; 2]; [4; 8]]; [[0; 0]; [0; 0]]] [3] =
     (inl DimensionMismatchError, [3]).
Proof.
  destruct (estimate_srg_rejects_mismatch (R := Z) [5; 10; 9; 18] five_betas)
    as [He Hsteps].
  - cbn. lia.
  - split; [exact He|].
    apply (Hsteps unit_stencil sample_eofs [[1; 2]; [4; 8]]
                  [[[0; 0]; [0; 0]]] [3]).
    reflexivity.
Defined.

(* ================================================================== *)
(** ** Year names *)

Section YearNames.

Lemma to_int_proper (z : Z) :
  Z.to_int z <> Decimal.Pos Decimal.Nil /\ Z.to_int z <> Decimal.Neg Decimal.Nil.
Proof.
  destruct z as [|p|p]; cbn; split; try discriminate;
    intros [= H]; exact (DecimalPos.Unsigned.to_uint_nonnil p H).
Qed.

(** The name of a year reads back as the year. *)
Lemma parse_year_str (z : Z) : parse_year (str z) = Some z.
Proof.
  unfold parse_year, str. destruct (to_int_proper z) as [Hp Hn].
  rewrite (NilZero.isi _ Hp Hn). cbn. now rewrite DecimalZ.of_to.
Qed.

Lemma str_inj (a b : Z) : str a = str b -> a = b.
Proof.
  intros H. pose proof (parse_year_str a) as Ha.
  rewrite H, parse_year_str in Ha. congruence.
Qed.

Lemma append_length (a b : string) :
  String.length (a ++ b)%string = (String.length a + String.length b)%nat.
Proof. induction a as [|c a IH]; cbn; [reflexivity|now rewrite IH]. Qed.

Lemma append_inj_l (p a b : string) : (p ++ a = p ++ b)%string -> a = b.
Proof. induction p as [|c p IH]; cbn; [auto|]. intros [= H]. auto. Qed.

Lemma append_inj_r (t : string) :
  forall a b, (a ++ t = b ++ t)%string -> a = b.
Proof.
  induction a as [|c a IH]; intros [|c' b] H; cbn in H.
  - reflexivity.
  - apply (f_equal String.length) in H. cbn in H.
    rewrite append_length in H. lia.
  - apply (f_equal String.length) in H. cbn in H.
    rewrite append_length in H. lia.
  - injection H as -> H. f_equal. now apply IH.
Qed.

Lemma folder_url_inj (a b : Z) :
  Merra2.folder_url a = Merra2.folder_url b -> a = b.
Proof.
  unfold Merra2.folder_url. intros H.
  apply append_inj_l, append_inj_l, append_inj_r in H. now apply str_inj.
Qed.

End YearNames.

(* ================================================================== *)
(** ** More on the year chain *)

Section ChainFacts.

Lemma valid_fields (d : datetime) :
  valid d = true ->
  MINYEAR <= year d <= MAXYEAR /\ 1 <= month d <= 12 /\
  1 <= day d <= days_in_month (year d) (month d) /\
  0 <= hour d <= 23 /\ 0 <= minute d <= 59 /\
  0 <= second d <= 59 /\ 0 <= microsecond d <= 999999.
Proof.
  unfold valid. rewrite !andb_true_iff, !between_spec. tauto.
Qed.

Lemma year_lt_le (a b : datetime) : year a < year b -> Calendar.le a b = true.
Proof.
  intros H. unfold Calendar.le, Calendar.compare, lex.
  now destruct (Z.compare_spec (year a) (year b)); try lia.
Qed.

Ltac compare_fields :=
  repeat match goal with
         | |- context [?a ?= ?b] =>
             destruct (Z.compare_spec a b); cbv beta iota
         end.

(** From the first instant of a year only the year decides [<=]. *)
Lemma first_instant_le (d e : datetime) :
  first_instant d = true -> valid e = true ->
  (Calendar.le d e = true <-> year d <= year e).
Proof.
  unfold first_instant. rewrite !andb_true_iff, !Z.eqb_eq.
  intros (((((Hm & Hd) & Hh) & Hmin) & Hs) & Hus) He.
  apply valid_fields in He.
  unfold Calendar.le, Calendar.compare, lex.
  rewrite Hm, Hd, Hh, Hmin, Hs, Hus.
  compare_fields; split; intros; try reflexivity; try discriminate; lia.
Qed.

Lemma add_first_instant (d d' : datetime) :
  first_instant d = true -> Calendar.add d {| years := 1 |} = Some d' ->
  first_instant d' = true.
Proof.
  unfold first_instant. rewrite !andb_true_iff, !Z.eqb_eq.
  intros (((((Hm & Hd) & Hh) & Hmin) & Hs) & Hus) Ha.
  apply add_one_year in Ha.
  destruct Ha as (_ & Hm' & Hd' & Hh' & Hmin' & Hs' & Hus').
  rewrite Hm', Hd', Hh', Hmin', Hs', Hus', Hm, Hd.
  repeat split; try assumption; reflexivity.
Qed.

Lemma add_one_year_range (d d' : datetime) :
  Calendar.add d {| years := 1 |} = Some d' ->
  MINYEAR <= year d' <= MAXYEAR.
Proof.
  unfold Calendar.add; cbn [years].
  destruct (between MINYEAR (year d + 1) MAXYEAR) eqn:Hb; [|discriminate].
  intros [= <-]. cbn. now apply between_spec.
Qed.

(** The walk raises exactly when it reaches the last year. *)
Lemma year_chain_overflow e s ds o :
  year_chain e s ds o -> 0 <= year s <= MAXYEAR ->
  (o = Raised ValueError <-> In MAXYEAR (map year ds)).
Proof.
  induction 1 as [d Hle | d d' ds o Hle Hadd Hch IH | d Hle Hadd]; intros Hy.
  - split; [discriminate|intros []].
  - pose proof (add_one_year_range _ _ Hadd) as Hr.
    pose proof (add_one_year _ _ Hadd) as (Hy' & _).
    unfold MINYEAR in Hr. rewrite IH by lia. cbn [map In].
    split; [auto|]. intros [Hd|Hin]; [lia|exact Hin].
  - apply add_one_year_none in Hadd. cbn [map In].
    split; [intros _; left; lia|reflexivity].
Qed.

(** How many loop dates there are. *)
Lemma year_chain_count e s ds o :
  year_chain e s ds o -> 0 <= year s <= MAXYEAR -> year e <= MAXYEAR ->
  year e - year s <= Z.of_nat (List.length ds)
                  <= Z.max 0 (year e - year s + 1).
Proof.
  intros Hch Hs He.
  induction Hch as [d Hle | d d' ds o Hle Hadd Hch IH | d Hle Hadd].
  - cbn [List.length].
    assert (year e <= year d).
    { destruct (Z_lt_ge_dec (year d) (year e)) as [Hlt|]; [|lia].
      apply year_lt_le in Hlt. congruence. }
    lia.
  - pose proof (add_one_year_range _ _ Hadd) as Hr.
    pose proof (add_one_year _ _ Hadd) as (Hy' & _).
    apply le_year in Hle. unfold MINYEAR in Hr.
    specialize (IH ltac:(lia)). cbn [List.length]. lia.
  - apply add_one_year_none in Hadd. apply le_year in Hle.
    cbn [List.length]. lia.
Qed.

Lemma year_chain_whole_years e s ds o :
  year_chain e s ds o -> first_instant s = true ->
  0 <= year s <= MAXYEAR -> valid e = true ->
  List.length ds = Z.to_nat (year e - year s + 1).
Proof.
  intros Hch Hf Hs He.
  induction Hch as [d Hle | d d' ds o Hle Hadd Hch IH | d Hle Hadd].
  - assert (~ year d <= year e).
    { intros Hy. apply (first_instant_le d e Hf He) in Hy. congruence. }
    cbn [List.length]. lia.
  - pose proof (add_one_year_range _ _ Hadd) as Hr.
    pose proof (add_one_year _ _ Hadd) as (Hy' & _).
    apply le_year in Hle. unfold MINYEAR in Hr.
    cbn [List.length].
    rewrite (IH (add_first_instant _ _ Hf Hadd) ltac:(lia)). lia.
  - apply add_one_year_none in Hadd. apply le_year in Hle.
    apply valid_fields in He. cbn [List.length]. lia.
Qed.

Lemma leap_years_apart (y : Z) : isleap y = true -> isleap (y + 1) = false.
Proof.
  unfold isleap. rewrite andb_true_iff, Z.eqb_eq. intros [H4 _].
  apply andb_false_intro1, Z.eqb_neq. Z.div_mod_to_equations. lia.
Qed.

Lemma keeps_date_start (s : datetime) : valid s = true -> keeps_date s s.
Proof.
  intros Hv. unfold keeps_date, loop_day. rewrite Z.eqb_refl.
  rewrite andb_false_r. repeat split; try assumption; lia.
Qed.

Lemma keeps_date_step (s d d' : datetime) :
  valid s = true -> keeps_date s d ->
  Calendar.add d {| years := 1 |} = Some d' -> keeps_date s d'.
Proof.
  intros Hs (Hv & Hy & Hm & Hd & Hh & Hmin & Hsec & Hus) Ha.
  pose proof (add_one_year_valid _ _ Hv Ha) as Hv'.
  apply add_one_year in Ha.
  destruct Ha as (Hy' & Hm' & Hd' & Hh' & Hmin' & Hs' & Hus').
  unfold keeps_date.
  repeat split; try assumption; try congruence; try lia.
  rewrite Hd', Hy', Hm, Hd. unfold loop_day.
  apply valid_fields in Hs. destruct Hs as (_ & Hms & Hds & _).
  unfold days_in_month in *.
  destruct (Z.eqb_spec (month s) 2) as [E2|N2]; cbn [andb] in *.
  - destruct (Z.eqb_spec (day s) 29) as [E29|N29]; cbn [andb] in *.
    + destruct (Z.eqb_spec (year d + 1) (year s)); [lia|]. cbn [negb].
      rewrite E2 in *. cbn [mdays] in *.
      destruct (Z.eqb_spec (year d) (year s)) as [Ey|Ny]; cbn [negb].
      * destruct (isleap (year s)) eqn:Hl; [|lia].
        rewrite Ey, (leap_years_apart _ Hl). lia.
      * destruct (isleap (year d + 1)); lia.
    + rewrite E2 in *. cbn [mdays] in *.
      destruct (isleap (year s)), (isleap (year d + 1)); lia.
  - destruct (month s =? 2) eqn:E; [apply Z.eqb_eq in E; lia|].
    cbn [andb] in *. lia.
Qed.

Lemma year_chain_keeps_date (s e : datetime) :
  valid s = true ->
  forall d ds o, year_chain e d ds o -> keeps_date s d ->
    Forall (keeps_date s) ds.
Proof.
  intros Hs. induction 1 as [d Hle | d d' ds o Hle Hadd Hch IH | d Hle Hadd];
    intros Hk.
  - constructor.
  - constructor; [exact Hk|]. apply IH. eapply keeps_date_step; eauto.
  - constructor; [exact Hk|constructor].
Qed.

End ChainFacts.

(* ================================================================== *)
(** ** How the range scripts end *)

Section Endings.

Lemma merra2_result cfg ds (s e : datetime) ow dates o :
  year_chain e s dates o ->
  run (Merra2.download_dataset cfg ds (Some s) (Some e) ow) =
    (o, New "NASADownloader" cfg ds ow
        :: map (fun d => DownloadFolder (Merra2.folder_url (year d))) dates).
Proof.
  intros Hch. destruct (merra2_run cfg ds s e ow) as (dates' & o' & Hch' & ->).
  now destruct (year_chain_functional _ _ _ _ Hch _ _ Hch') as [-> ->].
Qed.

Lemma soil_moisture_result cfg ds (s e : datetime) ow dates o :
  year_chain e s dates o ->
  run (EsacciSoilMoisture.download_dataset cfg ds (Some s) (Some e) ow) =
    (o, soil_moisture_prelude cfg ds ow
        ++ map (fun d => DownloadYear (PyStr (str (year d)))) dates).
Proof.
  intros Hch.
  destruct (soil_moisture_run cfg ds s e ow) as (dates' & o' & Hch' & ->).
  now destruct (year_chain_functional _ _ _ _ Hch _ _ Hch') as [-> ->].
Qed.

Lemma salinity_result env cfg ds (s e : datetime) ow dates o :
  year_chain e s dates o ->
  result (EsacciSeaSurfaceSalinity.download_dataset
            env cfg ds (Some s) (Some e) ow) = o.
Proof.
  intros Hch.
  destruct (salinity_run env cfg ds s e ow)
    as (dates' & o' & b1 & Hch' & _ & Hrun).
  destruct (year_chain_functional _ _ _ _ Hch _ _ Hch') as [<- <-].
  unfold result.
  destruct (year_chain_outcome _ _ _ _ Hch) as [-> | ->].
  - destruct Hrun as (b2 & _ & ->). reflexivity.
  - now rewrite Hrun.
Qed.

Lemma year_chain_exists (s e : datetime) :
  exists dates o, year_chain e s dates o.
Proof.
  eexists _, _. apply (walk_chain (S (Z.to_nat (year e - year s + 1)))). lia.
Qed.

(** However the dates are given, the three range scripts finish: they
    return, or the increment past year 9999 raises [ValueError], or (in
    merra2.py, with a date missing) the comparison raises [TypeError].
    The year loop never goes on for ever. *)
Theorem range_scripts_finish :
  forall (env : Env) (cfg : config) (ds : string) (s e : pydate) (ow : bool),
    (result (Merra2.download_dataset cfg ds s e ow) = Returned tt
     \/ result (Merra2.download_dataset cfg ds s e ow) = Raised ValueError
     \/ result (Merra2.download_dataset cfg ds s e ow)
        = Raised (TypeError "<=" (type_of s) (type_of e)))
    /\ (result (EsacciSeaSurfaceSalinity.download_dataset env cfg ds s e ow)
        = Returned tt
        \/ result (EsacciSeaSurfaceSalinity.download_dataset env cfg ds s e ow)
           = Raised ValueError)
    /\ (result (EsacciSoilMoisture.download_dataset cfg ds s e ow)
        = Returned tt
        \/ result (EsacciSoilMoisture.download_dataset cfg ds s e ow)
           = Raised ValueError).
Proof.
  intros env cfg ds s e ow. split; [|split].
  - destruct s as [s'|], e as [e'|]; try (right; right; reflexivity).
    destruct (year_chain_exists s' e') as (dates & o & Hch).
    unfold result. rewrite (merra2_result cfg ds s' e' ow _ _ Hch). cbn [fst].
    destruct (year_chain_outcome _ _ _ _ Hch) as [-> | ->]; auto.
  - rewrite salinity_defaults.
    destruct (default_if_none_some s EsacciSeaSurfaceSalinity.default_start)
      as [s' ->].
    destruct (default_if_none_some e EsacciSeaSurfaceSalinity.default_end)
      as [e' ->].
    destruct (year_chain_exists s' e') as (dates & o & Hch).
    rewrite (salinity_result env cfg ds s' e' ow _ _ Hch).
    exact (year_chain_outcome _ _ _ _ Hch).
  - rewrite soil_moisture_defaults.
    destruct (default_if_none_some s EsacciSoilMoisture.default_start)
      as [s' ->].
    destruct (default_if_none_some e EsacciSoilMoisture.default_end)
      as [e' ->].
    destruct (year_chain_exists s' e') as (dates & o & Hch).
    unfold result. rewrite (soil_moisture_result cfg ds s' e' ow _ _ Hch).
    exact (year_chain_outcome _ _ _ _ Hch).
Qed.

(** With a start date that is a datetime and an end date before year 9999
    the three range scripts return normally. *)
Theorem range_scripts_return_before_maxyear :
  forall (env : Env) (cfg : config) (ds : string) (s e : datetime) (ow : bool),
    valid s = true -> year e < MAXYEAR ->
    result (Merra2.download_dataset cfg ds (Some s) (Some e) ow) = Returned tt
    /\ result (EsacciSeaSurfaceSalinity.download_dataset
                 env cfg ds (Some s) (Some e) ow) = Returned tt
    /\ result (EsacciSoilMoisture.download_dataset
                 cfg ds (Some s) (Some e) ow) = Returned tt.
Proof.
  intros env cfg ds s e ow Hs He.
  destruct (year_chain_exists s e) as (dates & o & Hch).
  apply valid_fields in Hs. destruct Hs as (Hy & _). unfold MINYEAR in Hy.
  assert (o = Returned tt)
    by (apply (year_chain_returns e s dates o); [lia|exact He|exact Hch]).
  subst o. unfold result at 1 3.
  rewrite (merra2_result cfg ds s e ow _ _ Hch),
    (soil_moisture_result cfg ds s e ow _ _ Hch),
    (salinity_result env cfg ds s e ow _ _ Hch).
  repeat split.
Qed.

Lemma range_scripts_return_before_maxyear_witness :
  result (Merra2.download_dataset [] "DATASET" (Some (date3 2000 2 29))
            (Some (date3 2003 1 1)) false) = Returned tt
  /\ result (EsacciSeaSurfaceSalinity.download_dataset (env_const true) []
               "DATASET" (Some (date3 2000 2 29))
               (Some (date3 2003 1 1)) false) = Returned tt
  /\ result (EsacciSoilMoisture.download_dataset [] "DATASET"
               (Some (date3 2000 2 29)) (Some (date3 2003 1 1)) false)
     = Returned tt.
Proof.
  apply (range_scripts_return_before_maxyear (env_const true) [] "DATASET"
           (date3 2000 2 29) (date3 2003 1 1) false).
  - reflexivity.
  - reflexivity.
Defined.

End Endings.

(* ================================================================== *)
(** ** The last year, empty ranges, and what reaches the constructor *)

Section Edges.

Lemma in_map_years {B} (g : Z -> B) (dates : list datetime) (y : Z) :
  (forall a b, g a = g b -> a = b) ->
  (In (g y) (map (fun d => g (year d)) dates) <-> In y (map year dates)).
Proof.
  intros Hg. rewrite !in_map_iff. split.
  - intros (d & Hd & Hin). exists d. split; [now apply Hg|exact Hin].
  - intros (d & Hd & Hin). exists d. split; [now rewrite Hd|exact Hin].
Qed.

(** In merra2.py and esacci_soil_moisture.py the [ValueError] of the
    increment is raised exactly in the calls that downloaded year 9999
    (it is raised after that download). *)
Theorem value_error_after_last_year :
  forall (cfg : config) (ds : string) (s e : datetime) (ow : bool),
    valid s = true ->
    (result (Merra2.download_dataset cfg ds (Some s) (Some e) ow)
       = Raised ValueError
     <-> In (DownloadFolder (Merra2.folder_url MAXYEAR))
            (calls (Merra2.download_dataset cfg ds (Some s) (Some e) ow)))
    /\ (result (EsacciSoilMoisture.download_dataset
                  cfg ds (Some s) (Some e) ow) = Raised ValueError
        <-> In (DownloadYear (PyStr (str MAXYEAR)))
               (calls (EsacciSoilMoisture.download_dataset
                         cfg ds (Some s) (Some e) ow))).
Proof.
  intros cfg ds s e ow Hs.
  destruct (year_chain_exists s e) as (dates & o & Hch).
  apply valid_fields in Hs. destruct Hs as (Hy & _). unfold MINYEAR in Hy.
  pose proof (year_chain_overflow _ _ _ _ Hch ltac:(lia)) as Hov.
  unfold result, calls.
  rewrite (merra2_result cfg ds s e ow _ _ Hch),
    (soil_moisture_result cfg ds s e ow _ _ Hch).
  cbn [fst snd]. split.
  - rewrite Hov. cbn [In].
    rewrite (in_map_years (fun y => DownloadFolder (Merra2.folder_url y))).
    + split; [auto|]. intros [H|H]; [discriminate|exact H].
    + intros a b H. apply folder_url_inj. congruence.
  - rewrite Hov, in_app_iff.
    rewrite (in_map_years (fun y => DownloadYear (PyStr (str y)))).
    + split; [auto|]. intros [H|H]; [|exact H].
      cbn in H. repeat (destruct H as [H|H]; [discriminate|]). destruct H.
    + intros a b H. apply str_inj. congruence.
Qed.

Lemma value_error_after_last_year_witness :
  result (Merra2.download_dataset [] "MERRA2" (Some (date3 9998 6 1))
            (Some (date3 9999 12 31)) false) = Raised ValueError
  /\ In (DownloadFolder (Merra2.folder_url 9999))
        (calls (Merra2.download_dataset [] "MERRA2" (Some (date3 9998 6 1))
                  (Some (date3 9999 12 31)) false)).
Proof.
  assert (Hr : result (Merra2.download_dataset [] "MERRA2"
                         (Some (date3 9998 6 1)) (Some (date3 9999 12 31))
                         false) = Raised ValueError) by reflexivity.
  split; [exact Hr|].
  exact (proj1 (proj1 (value_error_after_last_year [] "MERRA2"
                         (date3 9998 6 1) (date3 9999 12 31) false eq_refl))
               Hr).
Defined.

Lemma year_chain_empty e s ds o :
  year_chain e s ds o -> Calendar.le s e = false ->
  ds = [] /\ o = Returned tt.
Proof. destruct 1; intros Hle; [auto|congruence..]. Qed.

(** With [start_date > end_date] nothing is downloaded for any year, but
    the scripts still do what comes before the loop: merra2.py creates
    the downloader, esacci_soil_moisture.py connects and downloads the
    ancillary folder, esacci_sea_surface_salinity.py connects and enters
    both version directories. *)
Theorem empty_range_runs :
  forall (env : Env) (cfg : config) (ds : string) (s e : datetime) (ow : bool),
    Calendar.le s e = false ->
    run (Merra2.download_dataset cfg ds (Some s) (Some e) ow) =
      (Returned tt, [New "NASADownloader" cfg ds ow])
    /\ run (EsacciSoilMoisture.download_dataset cfg ds (Some s) (Some e) ow) =
      (Returned tt, soil_moisture_prelude cfg ds ow)
    /\ run (EsacciSeaSurfaceSalinity.download_dataset
              env cfg ds (Some s) (Some e) ow) =
      (Returned tt,
       [New "CCIDownloader" cfg ds ow; Connect;
        SetCwd "v01.8/30days"; SetCwd "v02.31/30days"]).
Proof.
  intros env cfg ds s e ow Hle.
  destruct (salinity_run env cfg ds s e ow)
    as (dates & o & b1 & Hch & HF1 & Hrun).
  destruct (year_chain_empty _ _ _ _ Hch Hle) as [-> ->].
  rewrite (merra2_result cfg ds s e ow _ _ Hch),
    (soil_moisture_result cfg ds s e ow _ _ Hch).
  cbn [map]. rewrite app_nil_r. split; [reflexivity|]. split; [reflexivity|].
  destruct Hrun as (b2 & HF2 & ->).
  inversion HF1; inversion HF2; subst. reflexivity.
Qed.

Lemma empty_range_runs_witness :
  run (Merra2.download_dataset [] "DATASET" (Some (date3 2001 1 1))
         (Some (date3 2000 12 31)) false) =
    (Returned tt, [New "NASADownloader" [] "DATASET" false])
  /\ run (EsacciSoilMoisture.download_dataset [] "DATASET"
            (Some (date3 2001 1 1)) (Some (date3 2000 12 31)) false) =
    (Returned tt, soil_moisture_prelude [] "DATASET" false)
  /\ run (EsacciSeaSurfaceSalinity.download_dataset (env_const true) []
            "DATASET" (Some (date3 2001 1 1)) (Some (date3 2000 12 31))
            false) =
    (Returned tt,
     [New "CCIDownloader" [] "DATASET" false; Connect;
      SetCwd "v01.8/30days"; SetCwd "v02.31/30days"]).
Proof.
  apply (empty_range_runs (env_const true) [] "DATASET" (date3 2001 1 1)
           (date3 2000 12 31) false).
  reflexivity.
Defined.

(** In merra2.py and esacci_soil_moisture.py the configuration, the
    dataset name and the overwrite flag reach the constructor of the
    downloader and nothing else: two calls with the same dates end the
    same way and make the same calls after the construction. *)
Theorem only_constructor_sees_config :
  forall (cfg1 cfg2 : config) (ds1 ds2 : string) (ow1 ow2 : bool)
         (s e : pydate),
    result (Merra2.download_dataset cfg1 ds1 s e ow1)
      = result (Merra2.download_dataset cfg2 ds2 s e ow2)
    /\ tl (calls (Merra2.download_dataset cfg1 ds1 s e ow1))
      = tl (calls (Merra2.download_dataset cfg2 ds2 s e ow2))
    /\ result (EsacciSoilMoisture.download_dataset cfg1 ds1 s e ow1)
      = result (EsacciSoilMoisture.download_dataset cfg2 ds2 s e ow2)
    /\ tl (calls (EsacciSoilMoisture.download_dataset cfg1 ds1 s e ow1))
      = tl (calls (EsacciSoilMoisture.download_dataset cfg2 ds2 s e ow2)).
Proof.
  intros cfg1 cfg2 ds1 ds2 ow1 ow2 s e.
  assert (Hm : result (Merra2.download_dataset cfg1 ds1 s e ow1)
               = result (Merra2.download_dataset cfg2 ds2 s e ow2)
            /\ tl (calls (Merra2.download_dataset cfg1 ds1 s e ow1))
               = tl (calls (Merra2.download_dataset cfg2 ds2 s e ow2))).
  { destruct s as [s'|], e as [e'|]; try (split; reflexivity).
    destruct (year_chain_exists s' e') as (dates & o & Hch).
    unfold result, calls.
    rewrite (merra2_result cfg1 ds1 s' e' ow1 _ _ Hch),
      (merra2_result cfg2 ds2 s' e' ow2 _ _ Hch).
    split; reflexivity. }
  destruct Hm as [Hm1 Hm2]. split; [exact Hm1|]. split; [exact Hm2|].
  rewrite (soil_moisture_defaults cfg1), (soil_moisture_defaults cfg2).
  destruct (default_if_none_some s EsacciSoilMoisture.default_start)
    as [s' ->].
  destruct (default_if_none_some e EsacciSoilMoisture.default_end)
    as [e' ->].
  destruct (year_chain_exists s' e') as (dates & o & Hch).
  unfold result, calls.
  rewrite (soil_moisture_result cfg1 ds1 s' e' ow1 _ _ Hch),
    (soil_moisture_result cfg2 ds2 s' e' ow2 _ _ Hch).
  split; reflexivity.
Qed.

End Edges.

(* ================================================================== *)
(** ** Which years are downloaded *)

Section DownloadedYears.

Lemma keeps_date_eq (s d : datetime) :
  keeps_date s d -> d = date_in_year s (year d).
Proof.
  destruct d as [y m dd h mi se us]. unfold keeps_date, date_in_year. cbn.
  intros (_ & _ & -> & -> & -> & -> & -> & ->). reflexivity.
Qed.

Lemma year_chain_loop_years (s e : datetime) :
  valid s = true -> valid e = true ->
  forall d ds o, year_chain e d ds o -> keeps_date s d ->
    List.length ds =
      if year d <=? year e
      then (Z.to_nat (year e - year d)
            + (if Calendar.le (date_in_year s (year e)) e then 1 else 0))%nat
      else 0%nat.
Proof.
  intros Hs He.
  induction 1 as [d Hle | d d' ds o Hle Hadd Hch IH | d Hle Hadd]; intros Hk.
  - cbn [List.length].
    destruct (Z.leb_spec (year d) (year e)) as [Hy|Hy]; [|reflexivity].
    assert (Heq : year d = year e).
    { destruct (Z_lt_ge_dec (year d) (year e)) as [Hlt|]; [|lia].
      apply year_lt_le in Hlt. congruence. }
    rewrite <- Heq, <- (keeps_date_eq s d Hk), Hle, Heq, Z.sub_diag.
    reflexivity.
  - pose proof (keeps_date_step s d d' Hs Hk Hadd) as Hk'.
    pose proof (add_one_year _ _ Hadd) as (Hy' & _).
    pose proof (le_year _ _ Hle) as Hly.
    cbn [List.length]. rewrite (IH Hk'), Hy'.
    destruct (Z.leb_spec (year d) (year e)) as [_|]; [|lia].
    destruct (Z.leb_spec (year d + 1) (year e)) as [Hn|Hn].
    + replace (Z.to_nat (year e - year d))
        with (S (Z.to_nat (year e - (year d + 1)))) by lia.
      reflexivity.
    + assert (Heq : year d = year e) by lia.
      rewrite <- Heq, <- (keeps_date_eq s d Hk), Hle, Z.sub_diag. reflexivity.
  - pose proof (le_year _ _ Hle) as Hly.
    apply add_one_year_none in Hadd.
    destruct Hk as (Hv & Hk). pose proof Hv as Hv'.
    apply valid_fields in Hv', He.
    assert (Heq : year d = year e) by (unfold MINYEAR in *; lia).
    cbn [List.length].
    destruct (Z.leb_spec (year d) (year e)) as [_|]; [|lia].
    rewrite <- Heq, <- (keeps_date_eq s d (conj Hv Hk)), Hle, Z.sub_diag.
    reflexivity.
Qed.

Lemma year_chain_downloaded_years (s e : datetime) dates o :
  valid s = true -> valid e = true -> year_chain e s dates o ->
  map year dates = years_from (year s) (loop_years s e).
Proof.
  intros Hs He Hch. rewrite (year_chain_years _ _ _ _ Hch). unfold years_from.
  f_equal. f_equal.
  exact (year_chain_loop_years s e Hs He s dates o Hch (keeps_date_start s Hs)).
Qed.

(** Which years a call covers: every year from the year of [start_date]
    up to the year before that of [end_date], and the year of [end_date]
    too when the loop date of that year -- the month, day and time of
    [start_date], a 29 February moved to the 28th -- is not after
    [end_date].  merra2.py downloads the folders of exactly these years,
    esacci_soil_moisture.py these years, and
    esacci_sea_surface_salinity.py asks for exactly these years in each
    version. *)
Theorem downloaded_years :
  forall (env : Env) (cfg : config) (ds : string) (s e : datetime) (ow : bool),
    valid s = true -> valid e = true ->
    calls (Merra2.download_dataset cfg ds (Some s) (Some e) ow) =
      New "NASADownloader" cfg ds ow
      :: map (fun y => DownloadFolder (Merra2.folder_url y))
             (years_from (year s) (loop_years s e))
    /\ calls (EsacciSoilMoisture.download_dataset cfg ds (Some s) (Some e) ow) =
      soil_moisture_prelude cfg ds ow
      ++ map (fun y => DownloadYear (PyStr (str y)))
             (years_from (year s) (loop_years s e))
    /\ (year e < MAXYEAR ->
        exists_names
          (calls (EsacciSeaSurfaceSalinity.download_dataset
                    env cfg ds (Some s) (Some e) ow)) =
          map str (years_from (year s) (loop_years s e))
          ++ map str (years_from (year s) (loop_years s e))).
Proof.
  intros env cfg ds s e ow Hs He.
  destruct (salinity_run env cfg ds s e ow)
    as (dates & o & b1 & Hch & HF1 & Hrun).
  pose proof (year_chain_downloaded_years s e dates o Hs He Hch) as Hy.
  unfold calls.
  rewrite (merra2_result cfg ds s e ow _ _ Hch),
    (soil_moisture_result cfg ds s e ow _ _ Hch).
  cbn [snd]. rewrite <- Hy, !map_map. split; [reflexivity|].
  split; [reflexivity|]. intros Hmax.
  pose proof (valid_fields s Hs) as (Hys & _). unfold MINYEAR in Hys.
  assert (o = Returned tt)
    by (apply (year_chain_returns e s dates o); [lia|exact Hmax|exact Hch]).
  subst o. destruct Hrun as (b2 & HF2 & ->). cbn [snd].
  change ([New "CCIDownloader" cfg ds ow; Connect]
          ++ SetCwd "v01.8/30days" :: List.concat b1
          ++ SetCwd "v02.31/30days" :: List.concat b2)
    with ([New "CCIDownloader" cfg ds ow; Connect; SetCwd "v01.8/30days"]
          ++ List.concat b1 ++ [SetCwd "v02.31/30days"] ++ List.concat b2).
  rewrite !exists_names_app.
  rewrite (exists_names_turns _ _ _ HF1), (exists_names_turns _ _ _ HF2).
  reflexivity.
Qed.

Lemma downloaded_years_witness :
  calls (Merra2.download_dataset [] "DATASET" (Some (date3 2020 2 29))
           (Some (date3 2024 2 28)) false) =
    New "NASADownloader" [] "DATASET" false
    :: map (fun y => DownloadFolder (Merra2.folder_url y))
           [2020; 2021; 2022; 2023; 2024]
  /\ calls (EsacciSoilMoisture.download_dataset [] "DATASET"
              (Some (date3 2020 2 29)) (Some (date3 2024 2 28)) false) =
    soil_moisture_prelude [] "DATASET" false
    ++ map (fun y => DownloadYear (PyStr (str y)))
           [2020; 2021; 2022; 2023; 2024]
  /\ exists_names
       (calls (EsacciSeaSurfaceSalinity.download_dataset (env_const false) []
                 "DATASET" (Some (date3 2020 2 29)) (Some (date3 2024 2 28))
                 false)) =
     map str [2020; 2021; 2022; 2023; 2024]
     ++ map str [2020; 2021; 2022; 2023; 2024].
Proof.
  destruct (downloaded_years (env_const false) [] "DATASET" (date3 2020 2 29)
              (date3 2024 2 28) false eq_refl eq_refl) as (Hm & Hs & Hsal).
  split; [exact Hm|]. split; [exact Hs|]. apply Hsal. reflexivity.
Defined.

(** A range that starts at the first instant of a year (as the default
    dates do) covers every year from the year of [start_date] to the year
    of [end_date]. *)
Theorem whole_years_from_first_instant :
  forall (cfg : config) (ds : string) (s e : datetime) (ow : bool),
    first_instant s = true -> valid s = true -> valid e = true ->
    calls (Merra2.download_dataset cfg ds (Some s) (Some e) ow) =
      New "NASADownloader" cfg ds ow
      :: map (fun y => DownloadFolder (Merra2.folder_url y))
             (years_from (year s) (Z.to_nat (year e - year s + 1)))
    /\ calls (EsacciSoilMoisture.download_dataset cfg ds (Some s) (Some e) ow) =
      soil_moisture_prelude cfg ds ow
      ++ map (fun y => DownloadYear (PyStr (str y)))
             (years_from (year s) (Z.to_nat (year e - year s + 1))).
Proof.
  intros cfg ds s e ow Hf Hs He.
  destruct (year_chain_exists s e) as (dates & o & Hch).
  pose proof (valid_fields s Hs) as (Hys & _). unfold MINYEAR in Hys.
  pose proof (year_chain_whole_years _ _ _ _ Hch Hf ltac:(lia) He) as Hlen.
  pose proof (year_chain_years _ _ _ _ Hch) as Hy. rewrite Hlen in Hy.
  unfold calls.
  rewrite (merra2_result cfg ds s e ow _ _ Hch),
    (soil_moisture_result cfg ds s e ow _ _ Hch).
  cbn [snd]. unfold years_from. rewrite <- Hy, !map_map.
  split; reflexivity.
Qed.

Lemma whole_years_from_first_instant_witness :
  calls (Merra2.download_dataset [] "DATASET" (Some (date3 1980 1 1))
           (Some (date3 1982 7 15)) true) =
    New "NASADownloader" [] "DATASET" true
    :: map (fun y => DownloadFolder (Merra2.folder_url y)) [1980; 1981; 1982]
  /\ calls (EsacciSoilMoisture.download_dataset [] "DATASET"
              (Some (date3 1980 1 1)) (Some (date3 1982 7 15)) true) =
    soil_moisture_prelude [] "DATASET" true
    ++ map (fun y => DownloadYear (PyStr (str y))) [1980; 1981; 1982].
Proof.
  exact (whole_years_from_first_instant [] "DATASET" (date3 1980 1 1)
           (date3 1982 7 15) true eq_refl eq_refl eq_refl).
Defined.

End DownloadedYears.

(* ================================================================== *)
(** ** Loop dates, repeated requests, and answers *)

Section Requests.

(** Every loop date of merra2.py is a valid datetime with the month and
    the time of day of [start_date] and, unless [start_date] is a 29
    February, its day; after a 29 February every later loop date is a 28
    February, in leap years too. *)
Theorem loop_dates_keep_the_date :
  forall (cfg : config) (ds : string) (s e : datetime) (ow : bool),
    valid s = true ->
    exists (dates : list datetime) (o : outcome unit),
      run (Merra2.download_dataset cfg ds (Some s) (Some e) ow) =
        (o, New "NASADownloader" cfg ds ow
            :: map (fun d => DownloadFolder (Merra2.folder_url (year d)))
                   dates)
      /\ year_chain e s dates o
      /\ Forall (fun d => valid d = true /\ d = date_in_year s (year d)) dates.
Proof.
  intros cfg ds s e ow Hs.
  destruct (year_chain_exists s e) as (dates & o & Hch).
  exists dates, o. split; [now apply merra2_result|]. split; [exact Hch|].
  pose proof (year_chain_keeps_date s e Hs s dates o Hch (keeps_date_start s Hs))
    as Hk.
  eapply Forall_impl; [|exact Hk]. cbn. intros d Hd.
  split; [apply Hd|now apply keeps_date_eq].
Qed.

Lemma loop_dates_keep_the_date_witness :
  exists (dates : list datetime) (o : outcome unit),
    run (Merra2.download_dataset [] "MERRA2" (Some (date3 2020 2 29))
           (Some (date3 2024 2 29)) false) =
      (o, New "NASADownloader" [] "MERRA2" false
          :: map (fun d => DownloadFolder (Merra2.folder_url (year d))) dates)
    /\ year_chain (date3 2024 2 29) (date3 2020 2 29) dates o
    /\ Forall (fun d => valid d = true
                        /\ d = date_in_year (date3 2020 2 29) (year d)) dates.
Proof.
  exact (loop_dates_keep_the_date [] "MERRA2" (date3 2020 2 29)
           (date3 2024 2 29) false eq_refl).
Defined.

Lemma years_from_NoDup (first : Z) (count : nat) :
  NoDup (years_from first count).
Proof.
  unfold years_from. apply Finite.Injective_map_NoDup; [|apply seq_NoDup].
  intros a b H. lia.
Qed.

Lemma year_chain_NoDup e s dates o :
  year_chain e s dates o -> NoDup (map year dates).
Proof.
  intros Hch. rewrite (year_chain_years _ _ _ _ Hch). apply years_from_NoDup.
Qed.

(** One call of merra2.py or esacci_soil_moisture.py never makes the same
    request twice: each folder, each year is downloaded at most once. *)
Theorem no_request_twice :
  forall (cfg : config) (ds : string) (s e : datetime) (ow : bool),
    NoDup (calls (Merra2.download_dataset cfg ds (Some s) (Some e) ow))
    /\ NoDup (calls (EsacciSoilMoisture.download_dataset
                       cfg ds (Some s) (Some e) ow)).
Proof.
  intros cfg ds s e ow.
  destruct (year_chain_exists s e) as (dates & o & Hch).
  pose proof (year_chain_NoDup _ _ _ _ Hch) as Hnd.
  unfold calls.
  rewrite (merra2_result cfg ds s e ow _ _ Hch),
    (soil_moisture_result cfg ds s e ow _ _ Hch).
  cbn [snd]. split.
  - constructor.
    + rewrite in_map_iff. intros (d & Hd & _). discriminate.
    + rewrite <- (map_map year (fun y => DownloadFolder (Merra2.folder_url y))).
      apply Finite.Injective_map_NoDup; [|exact Hnd].
      intros a b H. apply folder_url_inj. congruence.
  - apply NoDup_app.
    + unfold soil_moisture_prelude.
      repeat (constructor;
              [cbn; intros H;
               repeat (destruct H as [H|H]; [discriminate|]); exact H|]).
      constructor.
    + rewrite <- (map_map year (fun y => DownloadYear (PyStr (str y)))).
      apply Finite.Injective_map_NoDup; [|exact Hnd].
      intros a b H. apply str_inj. congruence.
    + intros ev Hin Hmap. rewrite in_map_iff in Hmap.
      destruct Hmap as (d & <- & _). cbn in Hin.
      repeat (destruct Hin as [Hin|Hin]; [discriminate|]). exact Hin.
Qed.

Lemma count_answers_app a t1 t2 :
  count_answers a (t1 ++ t2) = (count_answers a t1 + count_answers a t2)%nat.
Proof. unfold count_answers. now rewrite filter_app, length_app. Qed.

Lemma download_year_calls_app t1 t2 :
  download_year_calls (t1 ++ t2)
  = download_year_calls t1 ++ download_year_calls t2.
Proof. apply flat_map_app. Qed.

Lemma log_messages_app t1 t2 :
  log_messages (t1 ++ t2) = log_messages t1 ++ log_messages t2.
Proof. apply flat_map_app. Qed.

Lemma answers_balance_app t1 t2 :
  answers_balance t1 -> answers_balance t2 -> answers_balance (t1 ++ t2).
Proof.
  unfold answers_balance. intros (H1 & H2 & H3) (H4 & H5 & H6).
  rewrite download_year_calls_app, log_messages_app, exists_names_app,
    !count_answers_app, !length_app. lia.
Qed.

Lemma answers_balance_turns version dates blocks :
  Forall2 (salinity_turn version) dates blocks ->
  answers_balance (List.concat blocks).
Proof.
  induction 1 as [|d evs dates blocks [-> | ->] _ IH]; cbn [List.concat].
  - repeat split.
  - apply answers_balance_app; [repeat split|exact IH].
  - apply answers_balance_app; [repeat split|exact IH].
Qed.

(** In esacci_sea_surface_salinity.py, whatever the dates and the server:
    there are as many [download_year] calls as [exists] calls answered
    true, as many log messages as [exists] calls answered false, and every
    [exists] call is one or the other. *)
Theorem salinity_answers_balance :
  forall (env : Env) (cfg : config) (ds : string) (s e : pydate) (ow : bool),
    answers_balance
      (calls (EsacciSeaSurfaceSalinity.download_dataset env cfg ds s e ow)).
Proof.
  intros env cfg ds s e ow. rewrite salinity_defaults.
  destruct (default_if_none_some s EsacciSeaSurfaceSalinity.default_start)
    as [s' ->].
  destruct (default_if_none_some e EsacciSeaSurfaceSalinity.default_end)
    as [e' ->].
  destruct (salinity_run env cfg ds s' e' ow)
    as (dates & o & b1 & Hch & HF1 & Hrun).
  pose proof (answers_balance_turns _ _ _ HF1) as H1.
  assert (Hhead : forall t, answers_balance t ->
            answers_balance ([New "CCIDownloader" cfg ds ow; Connect]
                             ++ SetCwd "v01.8/30days" :: t)).
  { intros t Ht. apply answers_balance_app; [repeat split|].
    apply (answers_balance_app [SetCwd "v01.8/30days"]);
      [repeat split|exact Ht]. }
  unfold calls.
  destruct (year_chain_outcome _ _ _ _ Hch) as [-> | ->].
  - destruct Hrun as (b2 & HF2 & ->). cbn [snd]. apply Hhead.
    apply answers_balance_app; [exact H1|].
    apply (answers_balance_app [SetCwd "v02.31/30days"]); [repeat split|].
    exact (answers_balance_turns _ _ _ HF2).
  - rewrite Hrun. cbn [snd]. apply Hhead. exact H1.
Qed.

End Requests.
